(** * NURBSCurve3D: a shallow embedding of src/NURBSCurve3D.cpp

    The class [base::geometry::NURBSCurve3D] wraps a SISL curve handle
    together with its control points, its parameter interval and two lazily
    computed scalars (curve length, maximum curvature).

    Conventions of the embedding.
    - A C++ [double] is idealised as a real number of the Standard Library;
      comparisons are the decidable comparisons of [R].  Rounding, infinities
      and NaN are outside the model.
    - An [int] status is a [Z]; it is only ever compared with [0].
    - A member function is a state transformer on the object: it returns an
      outcome (a value or a thrown exception) and the object as the call left
      it.  A C++ exception does not roll the object back, so the state comes
      out of a throwing call too.
    - SISL is an external library.  Its entry points are the fields of the
      class [SISL]; out-parameters are returned, and an out-parameter that
      aliases a member of the object also receives the member's old value. *)

From Stdlib Require Import Reals Lra Lia ZArith List String Bool.
Import ListNotations.
Open Scope R_scope.

(** ** Numbers *)

Definition Rltb (a b : R) : bool := if Rlt_dec a b then true else false.
Definition Rgtb (a b : R) : bool := Rltb b a.
Definition Rleb (a b : R) : bool := if Rle_dec a b then true else false.
Definition Rgeb (a b : R) : bool := Rleb b a.

(** <math.h>: [M_PI] is pi and [M_2_PI] is 2/pi. *)
Definition M_PI : R := PI.
Definition M_2_PI : R := 2 / PI.

(** <math.h>: [atan2 y x], the principal argument of the point (x, y), in
    (-pi, pi]; it is 0 at the origin. *)
Definition atan2 (y x : R) : R :=
  if Req_dec_T x 0 then
    if Req_dec_T y 0 then 0
    else if Rle_dec 0 y then PI / 2 else - (PI / 2)
  else
    let r := sqrt (x * x + y * y) in
    if Rle_dec 0 y then acos (x / r) else - acos (x / r).

(** Modelled from the spec: [DIM] comes from NURBSCurve3D.h, which is not
    among the sources; the curve is three-dimensional. *)
Definition DIM : Z := 3.

(** ** Eigen vectors and matrices *)

Record Vector2d := mkVector2d { x2 : R; y2 : R }.
Record Vector3d := mkVector3d { x3 : R; y3 : R; z3 : R }.
(** [frame << t0,t1,t2, n0,n1,n2, b0,b1,b2] fills a matrix row by row. *)
Record Matrix3d := mkMatrix3d { row0 : Vector3d; row1 : Vector3d; row2 : Vector3d }.

Definition sub3 (a b : Vector3d) : Vector3d :=
  mkVector3d (x3 a - x3 b) (y3 a - y3 b) (z3 a - z3 b).
Definition set_z (v : Vector3d) (c : R) : Vector3d := mkVector3d (x3 v) (y3 v) c.
Definition norm3 (v : Vector3d) : R := sqrt (x3 v * x3 v + y3 v * y3 v + z3 v * z3 v).
Definition norm2 (v : Vector2d) : R := sqrt (x2 v * x2 v + y2 v * y2 v).
(** [v.normalize()] is [v /= v.norm()]. *)
Definition normalize2 (v : Vector2d) : Vector2d :=
  mkVector2d (x2 v / norm2 v) (y2 v / norm2 v).

(** ** Exceptions and outcomes *)

Inductive exception :=
| out_of_range (what : string)
| runtime_error (what : string)
| logic_error (what : string).

(** The error kinds of the specification, as the exceptions the code throws. *)
Definition DomainError : exception :=
  out_of_range "_param is not in the [start_param, end_param] range".
Definition FitError : exception := runtime_error "cannot generate the curve".
Definition LengthError : exception := runtime_error "cannot get the curve length".
Definition SearchError : exception := runtime_error "failed to find the closes points".
Definition LocalSearchError : exception := runtime_error "failed to find the closest points".
Definition NoClosestPointError : exception :=
  logic_error "no closes point returned by findClosestPoints".
Definition SimplifyError : exception :=
  runtime_error "SISL error while simplifying a curve".
Definition NotInitializedError : exception :=
  runtime_error "the curve is not initialized".

(** [Spin] is a loop that has not ended within the fuel it was given. *)
Inductive outcome (A : Type) :=
| Return (a : A)
| Throw (e : exception)
| Spin.
Arguments Return {A} a.
Arguments Throw {A} e.
Arguments Spin {A}.

(** ** The SISL interface *)

(** An intersection curve; the code reads [epar1[0]] and [epar1[1]]. *)
Record SISLIntcurve := mkIntcurve { epar1 : list R }.

Definition double3 : Type := (R * R * R)%type.

(** [double point[DIM] = { _pt.x(), _pt.y(), _pt.z() }] *)
Definition point_array (_pt : Vector3d) : double3 := (x3 _pt, y3 _pt, z3 _pt).

(** [make_pair(c->epar1[0], c->epar1[1])]; an entry the array does not
    have reads as 0. *)
Definition interval_of (c : SISLIntcurve) : R * R :=
  (nth 0 (epar1 c) 0, nth 1 (epar1 c) 0).

Class SISL (SISLCurve : Type) := {
  (** [s1363(curve, &startpar, &endpar, &stat)]; the two parameters are the
      members [start_param] and [end_param], whose old values come last *)
  s1363 : option SISLCurve -> R -> R -> R * R * Z;
  (** [s1227(curve, der, parvalue, &leftknot, derive, &stat)] *)
  s1227 : option SISLCurve -> Z -> R -> Z * double3 * Z;
  (** [s2550(curve, ax, num_ax, curvature, &stat)] at one parameter *)
  s2550 : option SISLCurve -> R -> Z -> R * Z;
  (** [s1240(curve, epsge, &length, &stat)]; [length] is the member
      [curve_length], whose old value is the last argument *)
  s1240 : option SISLCurve -> R -> R -> R * Z;
  (** [s1356(epoint, inbpnt, idim, nptyp, icnsta, icnend, iopen, ik, astpar,
      &cendpar, &rc, &gpar, &jnbpar, &jstat)]; [cendpar] is the member
      [end_param], whose old value is the last argument; [rc] is the member
      [curve], null at the call.  [gpar] and [jnbpar] are never read. *)
  s1356 : list R -> Z -> Z -> list Z -> Z -> Z -> Z -> Z -> R -> R ->
          R * option SISLCurve * Z;
  (** [s1953(curve, point, dim, epsco, epsge, &numpt, &pointpar, &numcrv,
      &intcurves, &stat)]; the two arrays come with their lengths *)
  s1953 : option SISLCurve -> double3 -> Z -> R -> R ->
          list R * list SISLIntcurve * Z;
  (** [s1774(curve, point, dim, epsge, start, end, guess, &clpar, &stat)] *)
  s1774 : option SISLCurve -> double3 -> Z -> R -> R -> R -> R -> R * Z;
  (** [s2559(curve, ax, num_ax, p, t, n, b, &stat)] at one parameter *)
  s2559 : option SISLCurve -> R -> Z -> R * double3 * double3 * double3 * Z;
  (** [s1940(oldcurve, eps, startfix, endfix, iopen, itmax, &newcurve,
      maxerr, &stat)] *)
  s1940 : option SISLCurve -> double3 -> Z -> Z -> Z -> Z ->
          option SISLCurve * double3 * Z
}.

(** ** The object *)

Section Curve.

Context {SISLCurve : Type} {sisl : SISL SISLCurve}.

(** The data members.  [curve] is the owned pointer, [None] when null.
    [freeCurve] only returns a curve to the library's allocator: it leaves no
    trace in the object, and has none here. *)
Record NURBSCurve3D := mkNURBSCurve3D {
  curve : option SISLCurve;
  geometric_resolution : R;
  curve_order : Z;
  points : list Vector3d;
  start_param : R;
  end_param : R;
  has_curve_length : bool;
  curve_length : R;
  has_curvature_max : bool;
  curvature_max : R
}.

Definition set_curve (c : option SISLCurve) (o : NURBSCurve3D) : NURBSCurve3D :=
  mkNURBSCurve3D c (geometric_resolution o) (curve_order o) (points o)
    (start_param o) (end_param o) (has_curve_length o) (curve_length o)
    (has_curvature_max o) (curvature_max o).
Definition set_points (l : list Vector3d) (o : NURBSCurve3D) : NURBSCurve3D :=
  mkNURBSCurve3D (curve o) (geometric_resolution o) (curve_order o) l
    (start_param o) (end_param o) (has_curve_length o) (curve_length o)
    (has_curvature_max o) (curvature_max o).
Definition set_start_param (v : R) (o : NURBSCurve3D) : NURBSCurve3D :=
  mkNURBSCurve3D (curve o) (geometric_resolution o) (curve_order o) (points o)
    v (end_param o) (has_curve_length o) (curve_length o)
    (has_curvature_max o) (curvature_max o).
Definition set_end_param (v : R) (o : NURBSCurve3D) : NURBSCurve3D :=
  mkNURBSCurve3D (curve o) (geometric_resolution o) (curve_order o) (points o)
    (start_param o) v (has_curve_length o) (curve_length o)
    (has_curvature_max o) (curvature_max o).
Definition set_has_curve_length (b : bool) (o : NURBSCurve3D) : NURBSCurve3D :=
  mkNURBSCurve3D (curve o) (geometric_resolution o) (curve_order o) (points o)
    (start_param o) (end_param o) b (curve_length o)
    (has_curvature_max o) (curvature_max o).
Definition set_curve_length (v : R) (o : NURBSCurve3D) : NURBSCurve3D :=
  mkNURBSCurve3D (curve o) (geometric_resolution o) (curve_order o) (points o)
    (start_param o) (end_param o) (has_curve_length o) v
    (has_curvature_max o) (curvature_max o).
Definition set_has_curvature_max (b : bool) (o : NURBSCurve3D) : NURBSCurve3D :=
  mkNURBSCurve3D (curve o) (geometric_resolution o) (curve_order o) (points o)
    (start_param o) (end_param o) (has_curve_length o) (curve_length o)
    b (curvature_max o).
Definition set_curvature_max (v : R) (o : NURBSCurve3D) : NURBSCurve3D :=
  mkNURBSCurve3D (curve o) (geometric_resolution o) (curve_order o) (points o)
    (start_param o) (end_param o) (has_curve_length o) (curve_length o)
    (has_curvature_max o) v.

(** ** Member functions as state transformers *)

Definition M (A : Type) : Type := NURBSCurve3D -> outcome A * NURBSCurve3D.

Definition ret {A} (a : A) : M A := fun self => (Return a, self).
Definition throw {A} (e : exception) : M A := fun self => (Throw e, self).
Definition bind {A B} (m : M A) (k : A -> M B) : M B :=
  fun self =>
    match m self with
    | (Return a, self') => k a self'
    | (Throw e, self') => (Throw e, self')
    | (Spin, self') => (Spin, self')
    end.
Definition this : M NURBSCurve3D := fun self => (Return self, self).
Definition assign (f : NURBSCurve3D -> NURBSCurve3D) : M unit :=
  fun self => (Return tt, f self).

Notation "x <- m ;; k" := (bind m (fun x => k))
  (at level 61, m at next level, right associativity).
Notation "m ;;; k" := (bind m (fun _ => k))
  (at level 61, right associativity).

(** The constructor from a resolution, an order and control points: no
    curve, no cached scalar.  It leaves [start_param] and [end_param]
    uninitialised; the two last arguments are what they happen to hold. *)
Definition create (_geometric_resolution : R) (_curve_order : Z)
    (pts : list Vector3d) (start_junk end_junk : R) : NURBSCurve3D :=
  mkNURBSCurve3D None _geometric_resolution _curve_order pts
    start_junk end_junk false (-1) false (-1).


Definition getPoint (_param : R) : M Vector3d :=
  self <- this ;;
  if Rltb _param (start_param self) || Rgtb _param (end_param self)
  then throw DomainError
  else
    let '(_, (p0, p1, p2), status) := s1227 (curve self) 0 _param in
    if negb (status =? 0)%Z
    then throw (runtime_error "SISL error while computing a curve point")
    else ret (mkVector3d p0 p1 p2).

Definition getCurvature (_param : R) : M R :=
  self <- this ;;
  if Rltb _param (start_param self) || Rgtb _param (end_param self)
  then throw DomainError
  else
    let '(curvature, status) := s2550 (curve self) _param 1 in
    if negb (status =? 0)%Z
    then throw (runtime_error "SISL error while computing a curvature")
    else ret curvature.

Definition getCurveLength : M R :=
  self <- this ;;
  if has_curve_length self then ret (curve_length self)
  else
    let '(len, status) :=
      s1240 (curve self) (geometric_resolution self) (curve_length self) in
    assign (set_curve_length len) ;;;
    if negb (status =? 0)%Z then throw LengthError
    else
      assign (set_has_curve_length true) ;;;
      self <- this ;;
      ret (curve_length self).

Definition getUnitParameter : M R :=
  self <- this ;;
  len <- getCurveLength ;;
  ret ((end_param self - start_param self) / len).

(** The body of [for (double p = start_param; p <= end_param; p += delPara)],
    entered with the current [p]; [fuel] bounds the number of iterations. *)
Fixpoint curvature_loop (fuel : nat) (delPara p : R) : M unit :=
  self <- this ;;
  if Rleb p (end_param self) then
    match fuel with
    | O => fun self => (Spin, self)
    | S fuel' =>
        curvature <- getCurvature p ;;
        self <- this ;;
        (if Rgtb curvature (curvature_max self)
         then assign (set_curvature_max curvature)
         else ret tt) ;;;
        curvature_loop fuel' delPara (p + delPara)
    end
  else ret tt.

Definition getCurvatureMax (fuel : nat) : M R :=
  self <- this ;;
  if has_curvature_max self then ret (curvature_max self)
  else
    unit_parameter <- getUnitParameter ;;
    self <- this ;;
    let delPara := unit_parameter * geometric_resolution self in
    assign (set_curvature_max 0) ;;;
    curvature_loop fuel delPara (start_param self) ;;;
    assign (set_has_curvature_max true) ;;;
    self <- this ;;
    ret (curvature_max self).

Definition addPoint (pt : Vector3d) : M unit :=
  assign (fun self => set_points (points self ++ [pt]) self).

(** Modelled from the spec: [getPointCount] is defined in NURBSCurve3D.h,
    which is not among the sources; it is the number of control points. *)
Definition getPointCount (self : NURBSCurve3D) : Z :=
  Z.of_nat (List.length (points self)).

(** The two local arrays of [update]: the coordinates of the control
    points one after the other, and type 1 (ordinary point) for each. *)
Definition coordinates (pts : list Vector3d) : list R :=
  flat_map (fun p => [x3 p; y3 p; z3 p]) pts.
Definition ordinary_points (pts : list Vector3d) : list Z :=
  map (fun _ => 1%Z) pts.

Definition update : M unit :=
  self <- this ;;
  let epoint := coordinates (points self) in
  let point_types := ordinary_points (points self) in
  assign (set_start_param 0) ;;;
  (match curve self with
   | Some _ => assign (set_curve None)
   | None => ret tt
   end) ;;;
  self <- this ;;
  let '(cendpar, rc, status) :=
    s1356 epoint (getPointCount self) DIM point_types 0 0 1 (curve_order self)
      (start_param self) (end_param self) in
  assign (set_end_param cendpar) ;;;
  assign (set_curve rc) ;;;
  if negb (status =? 0)%Z then throw FitError else ret tt.

(** The two result vectors are references to the caller's vectors: they come
    in with their contents and go out with the pushed elements. *)
Definition findClosestPoints (_pt : Vector3d)
    (_result_points : list R) (_result_curves : list (R * R)) (_geores : R)
    : M (list R * list (R * R)) :=
  self <- this ;;
  let point := point_array _pt in
  let '(pts, curves, status) := s1953 (curve self) point DIM _geores _geores in
  if negb (status =? 0)%Z then throw SearchError
  else
    let _result_curves' := _result_curves ++ map interval_of curves in
    let _result_points' := _result_points ++ pts in
    ret (_result_points', _result_curves').

Definition findOneClosestPoint (_pt : Vector3d) (_geores : R) : M R :=
  found <- findClosestPoints _pt [] [] _geores ;;
  let '(pts, curves) := found in
  match pts with
  | [] =>
      match curves with
      | [] => throw NoClosestPointError
      | front :: _ => ret (fst front)
      end
  | front :: _ => ret front
  end.

Definition localClosestPointSearch (_pt : Vector3d)
    (_guess _start _end _geores : R) : M R :=
  self <- this ;;
  let point := point_array _pt in
  let '(param, status) :=
    s1774 (curve self) point DIM _geores _start _end _guess in
  if (status <? 0)%Z then throw LocalSearchError
  else ret param.

Definition getFrenetFrame (_param : R) : M Matrix3d :=
  self <- this ;;
  let '(_, (t0, t1, t2), (n0, n1, n2), (b0, b1, b2), _) :=
    s2559 (curve self) _param 1 in
  ret (mkMatrix3d (mkVector3d t0 t1 t2) (mkVector3d n0 n1 n2)
         (mkVector3d b0 b1 b2)).

Definition getHeading (_param : R) : M R :=
  frame <- getFrenetFrame _param ;;
  let Xaxis := normalize2 (mkVector2d (x3 (row0 frame)) (y3 (row0 frame))) in
  ret (atan2 (y2 Xaxis) (x2 Xaxis)).

Definition clear : M unit :=
  self <- this ;;
  (match curve self with
   | Some _ => assign (set_curve None)
   | None => ret tt
   end) ;;;
  assign (set_points []).

Definition simplify (tolerance : R) : M (list R) :=
  self <- this ;;
  match curve self with
  | None => throw NotInitializedError
  | Some _ =>
      let epsilon := (tolerance, tolerance, tolerance) in
      let '(result, (m0, m1, m2), status) :=
        s1940 (curve self) epsilon (curve_order self) (curve_order self) 1 10 in
      if negb (status =? 0)%Z then throw SimplifyError
      else
        assign (set_curve result) ;;;
        ret [m0; m1; m2]
  end.

Definition headingError (_actZRot _param : R) : M R :=
  heading <- getHeading _param ;;
  let error := _actZRot - heading in
  if Rgtb error M_PI then ret (error - M_2_PI)
  else if Rltb error (- M_PI) then ret (error + M_2_PI)
  else ret error.

Definition distanceError (_pt : Vector3d) (_param : R) : M R :=
  on_curve <- getPoint _param ;;
  let error := set_z (sub3 _pt on_curve) 0 in
  let pt_vec := normalize2 (mkVector2d (x3 error) (y3 error)) in
  heading <- getHeading _param ;;
  let angle := atan2 (y2 pt_vec) (x2 pt_vec) - heading in
  if Rgeb angle 0 then ret (norm3 error) else ret (- norm3 error).

Definition poseError (_pt : Vector3d) (_actZRot _st_para _len_tol : R)
    : M Vector3d :=
  unit_parameter <- getUnitParameter ;;
  let del_para := unit_parameter * _len_tol in
  self <- this ;;
  param <- localClosestPointSearch _pt _st_para _st_para (_st_para + del_para)
             (geometric_resolution self) ;;
  d <- distanceError _pt param ;;
  h <- headingError _actZRot param ;;
  ret (mkVector3d d h param).

End Curve.

Arguments NURBSCurve3D : clear implicits.

(** Unfolds the plumbing of [M]. *)
Ltac run := unfold bind, this, ret, throw, assign.

(** ** Notions of the claims

    The code has no function for these; they are what the claims measure
    the results of [distanceError] against. *)

(** The distance between two points once their heights are ignored. *)
Definition planar_distance (p c : Vector3d) : R :=
  sqrt ((x3 p - x3 c) * (x3 p - x3 c) + (y3 p - y3 c) * (y3 p - y3 c)).

(** The planar vector from [c] to [q]. *)
Definition error_vector (q c : Vector3d) : Vector2d :=
  mkVector2d (x3 q - x3 c) (y3 q - y3 c).

(** The angle of a planar vector, taken as the code takes it: normalise,
    then [atan2]. *)
Definition angle_of (v : Vector2d) : R :=
  atan2 (y2 (normalize2 v)) (x2 (normalize2 v)).

(** The mirror image of [p] in the line of the horizontal plane that passes
    through [c] with direction (tx, ty); the height of [p] is kept. *)
Definition mirror (c : Vector3d) (tx ty : R) (p : Vector3d) : Vector3d :=
  let dx := x3 p - x3 c in
  let dy := y3 p - y3 c in
  let k := 2 * (dx * tx + dy * ty) / (tx * tx + ty * ty) in
  mkVector3d (x3 c + (k * tx - dx)) (y3 c + (k * ty - dy)) (z3 p).

(** ** A stand-in for the library

    A library that knows one family of curves: the segment that leaves the
    origin along the negative x axis, parametrised by arc length.  A curve is
    represented by its length.  A null curve is an error (status -1) that
    leaves the out-parameters alone. *)

Module Ray.

Definition clamp (lo hi v : R) : R :=
  if Rlt_dec v lo then lo else if Rlt_dec hi v then hi else v.

(** The fit needs two points at least; the segment ends at the last one. *)
Definition fit (epoint : list R) (inbpnt : Z) (cendpar : R)
    : R * option R * Z :=
  if (inbpnt <? 2)%Z then (cendpar, None, (-1)%Z)
  else
    let len := - nth (3 * (Z.to_nat inbpnt - 1)) epoint 0 in
    (len, Some len, 0%Z).

Definition zero3 : double3 := (0, 0, 0).

Definition lib : SISL R := {|
  s1363 c startpar endpar :=
    match c with
    | Some len => (0, len, 0%Z)
    | None => (startpar, endpar, (-1)%Z)
    end;
  s1227 c _ par :=
    match c with
    | Some _ => (0%Z, (- par, 0, 0), 0%Z)
    | None => (0%Z, zero3, (-1)%Z)
    end;
  s2550 c _ _ :=
    match c with Some _ => (0, 0%Z) | None => (0, (-1)%Z) end;
  s1240 c _ old :=
    match c with Some len => (len, 0%Z) | None => (old, (-1)%Z) end;
  s1356 epoint inbpnt _ _ _ _ _ _ _ cendpar := fit epoint inbpnt cendpar;
  s1953 c point _ _ _ :=
    match c with
    | Some len => ([clamp 0 len (- fst (fst point))], [], 0%Z)
    | None => ([], [], (-1)%Z)
    end;
  s1774 c point _ _ lo hi guess :=
    match c with
    | Some _ => (clamp lo hi (- fst (fst point)), 0%Z)
    | None => (guess, (-1)%Z)
    end;
  s2559 c _ _ :=
    match c with
    | Some _ => (0, (-1, 0, 0), (0, -1, 0), (0, 0, 1), 0%Z)
    | None => (0, zero3, zero3, zero3, (-1)%Z)
    end;
  s1940 c _ _ _ _ _ :=
    match c with
    | Some _ => (c, zero3, 0%Z)
    | None => (None, zero3, (-1)%Z)
    end
|}.

(** The same family along the positive x axis: positions, frames and
    closest points are mirrored, the rest is shared. *)
Definition east : SISL R := {|
  s1363 := s1363 (SISL := lib);
  s1227 c _ par :=
    match c with
    | Some _ => (0%Z, (par, 0, 0), 0%Z)
    | None => (0%Z, zero3, (-1)%Z)
    end;
  s2550 := s2550 (SISL := lib);
  s1240 := s1240 (SISL := lib);
  s1356 epoint inbpnt _ _ _ _ _ _ _ cendpar :=
    fit (map Ropp epoint) inbpnt cendpar;
  s1953 c point _ _ _ :=
    match c with
    | Some len => ([clamp 0 len (fst (fst point))], [], 0%Z)
    | None => ([], [], (-1)%Z)
    end;
  s1774 c point _ _ lo hi guess :=
    match c with
    | Some _ => (clamp lo hi (fst (fst point)), 0%Z)
    | None => (guess, (-1)%Z)
    end;
  s2559 c _ _ :=
    match c with
    | Some _ => (0, (1, 0, 0), (0, 1, 0), (0, 0, 1), 0%Z)
    | None => (0, zero3, zero3, zero3, (-1)%Z)
    end;
  s1940 := s1940 (SISL := lib)
|}.

(** An object that holds the unit segment: two control points, fitted. *)
Definition unit_segment : NURBSCurve3D R :=
  mkNURBSCurve3D (Some 1) (1 / 100) 3
    [mkVector3d 0 0 0; mkVector3d (-1) 0 0] 0 1 false (-1) false (-1).

(** The unit segment of [east]. *)
Definition east_segment : NURBSCurve3D R :=
  mkNURBSCurve3D (Some 1) (1 / 100) 3
    [mkVector3d 0 0 0; mkVector3d 1 0 0] 0 1 false (-1) false (-1).

(** The unit segment once its length has been asked for. *)
Definition measured_segment : NURBSCurve3D R :=
  set_has_curve_length true (set_curve_length 1 unit_segment).

(** The measured unit segment after [update]. *)
Definition refitted_segment : NURBSCurve3D R :=
  set_curve (Some (- -1))
    (set_end_param (- -1) (set_start_param 0 measured_segment)).

(** The measured unit segment after a third control point (-3, 0, 0) and
    [update]: the curve has length 3, the cached length is still 1. *)
Definition extended_segment : NURBSCurve3D R :=
  mkNURBSCurve3D (Some (- -3)) (1 / 100) 3
    [mkVector3d 0 0 0; mkVector3d (-1) 0 0; mkVector3d (-3) 0 0]
    0 (- -3) true 1 false (-1).

(** Where the curves of [lib] start, as [s1227] writes it at parameter 0. *)
Definition start_point : Vector3d := mkVector3d (- 0) 0 0.

(** A library in which every call reports the error status -1. *)
Definition broken : SISL R := {|
  s1363 _ startpar endpar := (startpar, endpar, (-1)%Z);
  s1227 _ _ _ := (0%Z, zero3, (-1)%Z);
  s2550 _ _ _ := (0, (-1)%Z);
  s1240 _ _ old := (old, (-1)%Z);
  s1356 _ _ _ _ _ _ _ _ _ cendpar := (cendpar, None, (-1)%Z);
  s1953 _ _ _ _ _ := ([], [], (-1)%Z);
  s1774 _ _ _ _ _ _ guess := (guess, (-1)%Z);
  s2559 _ _ _ := (0, zero3, zero3, zero3, (-1)%Z);
  s1940 _ _ _ _ _ _ := (None, zero3, (-1)%Z)
|}.


End Ray.

(** ** The rest of NURBSCurve3D.cpp *)

Section CurveRest.

Context {SISLCurve : Type} {sisl : SISL SISLCurve}.

(** Two more entry points of SISL.
    [s2556(curve, ax, num_ax, VoC, &stat)] at one parameter, and
    [copyCurve(curve)]. *)
Variable s2556 : option SISLCurve -> R -> Z -> R * Z.
Variable copyCurve : SISLCurve -> SISLCurve.

Notation "x <- m ;; k" := (bind m (fun x => k))
  (at level 61, m at next level, right associativity).

(** The copy constructor: [copyCurve] when the source holds a curve. *)
Definition copy (source : NURBSCurve3D SISLCurve) : NURBSCurve3D SISLCurve :=
  mkNURBSCurve3D
    (match curve source with Some c => Some (copyCurve c) | None => None end)
    (geometric_resolution source) (curve_order source) (points source)
    (start_param source) (end_param source)
    (has_curve_length source) (curve_length source)
    (has_curvature_max source) (curvature_max source).

Definition getVariationOfCurvature (_param : R) : M R :=
  self <- this ;;
  if Rltb _param (start_param self) || Rgtb _param (end_param self)
  then throw DomainError
  else
    let '(VoC, status) := s2556 (curve self) _param 1 in
    if negb (status =? 0)%Z
    then throw (runtime_error "SISL error while computing a variation of curvature")
    else ret VoC.

(** The overloads that take the tolerance from [geometric_resolution]. *)
Definition findOneClosestPoint_default (_pt : Vector3d) : M R :=
  self <- this ;;
  findOneClosestPoint _pt (geometric_resolution self).

Definition findClosestPoints_default (_pt : Vector3d)
    (_points : list R) (_curves : list (R * R)) : M (list R * list (R * R)) :=
  self <- this ;;
  findClosestPoints _pt _points _curves (geometric_resolution self).

Definition localClosestPointSearch_default (_pt : Vector3d)
    (_guess _start _end : R) : M R :=
  self <- this ;;
  localClosestPointSearch _pt _guess _start _end (geometric_resolution self).

Definition simplify_default : M (list R) :=
  self <- this ;;
  simplify (geometric_resolution self).

End CurveRest.

(** ** More of Eigen: rotations and affine maps *)

Definition add3 (a b : Vector3d) : Vector3d :=
  mkVector3d (x3 a + x3 b) (y3 a + y3 b) (z3 a + z3 b).
Definition scale3 (k : R) (v : Vector3d) : Vector3d :=
  mkVector3d (k * x3 v) (k * y3 v) (k * z3 v).
Definition cross3 (a b : Vector3d) : Vector3d :=
  mkVector3d (y3 a * z3 b - z3 a * y3 b) (z3 a * x3 b - x3 a * z3 b)
    (x3 a * y3 b - y3 a * x3 b).
Definition dot3 (a b : Vector3d) : R := x3 a * x3 b + y3 a * y3 b + z3 a * z3 b.
Definition UnitZ : Vector3d := mkVector3d 0 0 1.

Record Quaterniond := mkQuaterniond { qw : R; qvec : Vector3d }.

(** [Quaterniond(AngleAxisd(angle, axis))]: half the angle, the cosine in
    [w] and the sine times the axis in the vector part. *)
Definition Quaterniond_of_AngleAxisd (angle : R) (axis : Vector3d) : Quaterniond :=
  let ha := angle / 2 in
  mkQuaterniond (cos ha) (scale3 (sin ha) axis).

(** [q * v]: [uv = q.vec().cross(v); uv += uv;
    v + q.w() * uv + q.vec().cross(uv)]. *)
Definition rotate (q : Quaterniond) (v : Vector3d) : Vector3d :=
  let uv := cross3 (qvec q) v in
  let uv := add3 uv uv in
  add3 (add3 v (scale3 (qw q) uv)) (cross3 (qvec q) uv).

(** An affine map: a linear part and a translation. *)
Record Affine3d := mkAffine3d { linear : Matrix3d; translation : Vector3d }.

Definition Affine3d_Identity : Affine3d :=
  mkAffine3d
    (mkMatrix3d (mkVector3d 1 0 0) (mkVector3d 0 1 0) (mkVector3d 0 0 1))
    (mkVector3d 0 0 0).

(** [transform * point] *)
Definition transform_point (t : Affine3d) (v : Vector3d) : Vector3d :=
  add3 (mkVector3d (dot3 (row0 (linear t)) v) (dot3 (row1 (linear t)) v)
          (dot3 (row2 (linear t)) v))
       (translation t).

(** ** base/samples/LaserScan.hpp *)

Module Laser.

(** [enum LASER_RANGE_ERRORS]: range values that stand for an error. *)
Inductive LASER_RANGE_ERRORS :=
| TOO_FAR
| TOO_NEAR
| MEASUREMENT_ERROR
| OTHER_RANGE_ERRORS
| MAX_RANGE_ERROR
| END_LASER_RANGE_ERRORS.

Definition enum_value (e : LASER_RANGE_ERRORS) : Z :=
  match e with
  | TOO_FAR => 1
  | TOO_NEAR => 2
  | MEASUREMENT_ERROR => 3
  | OTHER_RANGE_ERRORS => 4
  | MAX_RANGE_ERROR => 5
  | END_LASER_RANGE_ERRORS => 6
  end%Z.

(** The scan.  A [uint32_t] is a [Z]; the code only compares ranges and
    converts them to [double].  Modelled from the spec: [base::Time] comes
    from base/Time.hpp, which is not among the sources; [time] is kept as a
    number that no function here reads. *)
Record LaserScan := mkLaserScan {
  time : Z;
  start_angle : R;
  angular_resolution : R;
  speed : R;
  ranges : list Z;
  minRange : Z;
  maxRange : Z;
  remission : list R
}.

(** What a call that indexes [ranges] can come to: a value, an exception,
    or a read of [ranges[i]] with [i = ranges.size()], one past the end, for
    which [std::vector] defines nothing. *)
Inductive access (A : Type) :=
| Got (a : A)
| Raised (e : exception)
| PastTheEnd.
Arguments Got {A} a.
Arguments Raised {A} e.
Arguments PastTheEnd {A}.

Definition isRangeValid (self : LaserScan) (range : Z) : bool :=
  if ((minRange self <=? range) && (range <=? maxRange self)
      && (enum_value END_LASER_RANGE_ERRORS <=? range))%Z
  then true
  else false.

Definition isValidBeam (self : LaserScan) (i : nat) : access bool :=
  if (List.length (ranges self) <? i)%nat
  then Raised (out_of_range "Invalid beam index given")
  else
    match nth_error (ranges self) i with
    | Some range => Got (isRangeValid self range)
    | None => PastTheEnd
    end.

Definition reset (self : LaserScan) : LaserScan :=
  mkLaserScan (time self) 0 (angular_resolution self) 0 [] 0 0 [].

(** [point] is the caller's vector: it comes back as it was when the
    function returns false. *)
Definition getPointFromScanBeamXForward (self : LaserScan) (i : nat)
    (point : Vector3d) : access (bool * Vector3d) :=
  match isValidBeam self i with
  | Raised e => Raised e
  | PastTheEnd => PastTheEnd
  | Got false => Got (false, point)
  | Got true =>
      let point := mkVector3d (IZR (nth i (ranges self) 0%Z) / 1000) 0 0 in
      let point :=
        rotate (Quaterniond_of_AngleAxisd
                  (start_angle self + INR i * angular_resolution self) UnitZ)
               point in
      Got (true, point)
  end.

Definition getPointFromScanBeam (self : LaserScan) (i : nat)
    (point : Vector3d) : access (bool * Vector3d) :=
  match isValidBeam self i with
  | Raised e => Raised e
  | PastTheEnd => PastTheEnd
  | Got false => Got (false, point)
  | Got true =>
      let point := mkVector3d 0 (IZR (nth i (ranges self) 0%Z) / 1000) 0 in
      let point :=
        rotate (Quaterniond_of_AngleAxisd
                  (start_angle self + INR i * angular_resolution self) UnitZ)
               point in
      Got (true, point)
  end.

Section Clouds.

(** Modelled from the spec: [base::unknown<double>()] comes from
    base/Float.hpp, which is not among the sources; it is the coordinate
    given to a point that could not be measured. *)
Variable unknown : R.

(** The local [Eigen::Vector3d point] of the loops starts uninitialised. *)
Variable junk : Vector3d.

(** One of the two loops of [convertScanToPointCloud], from beam [i] on, for
    the [remaining] beams; [keep_invalid] tells the loop that pushes an
    unknown point for an invalid beam from the loop that skips it. *)
Fixpoint cloud_loop (self : LaserScan) (transform : Affine3d)
    (keep_invalid : bool) (remaining i : nat) (points : list Vector3d)
    : access (list Vector3d) :=
  match remaining with
  | O => Got points
  | S remaining' =>
      match getPointFromScanBeamXForward self i junk with
      | Raised e => Raised e
      | PastTheEnd => PastTheEnd
      | Got (true, point) =>
          cloud_loop self transform keep_invalid remaining' (S i)
            (points ++ [transform_point transform point])
      | Got (false, _) =>
          cloud_loop self transform keep_invalid remaining' (S i)
            (if keep_invalid
             then points ++ [mkVector3d unknown unknown unknown]
             else points)
      end
  end.

(** [points] is the caller's vector; it is cleared first. *)
Definition convertScanToPointCloud (self : LaserScan) (points : list Vector3d)
    (transform : Affine3d) (skip_invalid_points : bool)
    : access (list Vector3d) :=
  let points : list Vector3d := [] in
  if negb skip_invalid_points
  then cloud_loop self transform true (List.length (ranges self)) 0 points
  else cloud_loop self transform false (List.length (ranges self)) 0 points.

(** The loop of the deprecated conversion. *)
Fixpoint deprecated_loop (self : LaserScan) (transform : Affine3d)
    (remaining i : nat) (pointCloud : list Vector3d)
    : access (list Vector3d) :=
  match remaining with
  | O => Got pointCloud
  | S remaining' =>
      match getPointFromScanBeam self i junk with
      | Raised e => Raised e
      | PastTheEnd => PastTheEnd
      | Got (true, point) =>
          deprecated_loop self transform remaining' (S i)
            (pointCloud ++ [transform_point transform point])
      | Got (false, _) =>
          deprecated_loop self transform remaining' (S i) pointCloud
      end
  end.

Definition convertScanToPointCloud_deprecated (self : LaserScan)
    (transform : Affine3d) : access (list Vector3d) :=
  deprecated_loop self transform (List.length (ranges self)) 0 [].

End Clouds.

(** A scan of four beams a quarter turn apart, from angle 0: two good
    ranges, an error code and a range beyond [maxRange]. *)
Definition sample : LaserScan :=
  mkLaserScan 0 0 (PI / 2) 1 [2000; 3; 1000; 9000]%Z 20 5000 [].

(** The direction of beam [i], the polar point of a range on it, a quarter
    turn to the left about the z axis, and the ranges with their indices:
    the notions the properties of the conversions are stated with. *)
Definition polar_point (self : LaserScan) (i : nat) (range : Z) : Vector3d :=
  let theta := start_angle self + INR i * angular_resolution self in
  mkVector3d (IZR range / 1000 * cos theta) (IZR range / 1000 * sin theta) 0.
Definition quarter_turn (v : Vector3d) : Vector3d :=
  mkVector3d (- y3 v) (x3 v) (z3 v).
Definition beams (self : LaserScan) : list (nat * Z) :=
  combine (seq 0 (List.length (ranges self))) (ranges self).

End Laser.

(** ** More objects for [Ray] *)

Module Sample.

(** The unit segment of [Ray.lib] with a resolution of 1, of 0 and of -1. *)
Definition coarse : NURBSCurve3D R :=
  mkNURBSCurve3D (Some 1) 1 3
    [mkVector3d 0 0 0; mkVector3d (-1) 0 0] 0 1 false (-1) false (-1).
Definition zero_resolution : NURBSCurve3D R :=
  mkNURBSCurve3D (Some 1) 0 3
    [mkVector3d 0 0 0; mkVector3d (-1) 0 0] 0 1 false (-1) false (-1).
Definition negative_resolution : NURBSCurve3D R :=
  mkNURBSCurve3D (Some 1) (-1) 3
    [mkVector3d 0 0 0; mkVector3d (-1) 0 0] 0 1 false (-1) false (-1).

(** A derivative of curvature that is 0 everywhere, for [s2556]. *)
Definition flat_s2556 (c : option R) (p : R) (n : Z) : R * Z := (0, 0%Z).

End Sample.

(** * Properties *)

(** ** Comparisons *)

Lemma Rltb_true (a b : R) : a < b -> Rltb a b = true.
Proof. intros H. unfold Rltb. destruct (Rlt_dec a b); [reflexivity | contradiction]. Qed.

Lemma Rltb_false (a b : R) : b <= a -> Rltb a b = false.
Proof. intros H. unfold Rltb. destruct (Rlt_dec a b); [lra | reflexivity]. Qed.

Lemma Rleb_true (a b : R) : a <= b -> Rleb a b = true.
Proof. intros H. unfold Rleb. destruct (Rle_dec a b); [reflexivity | contradiction]. Qed.

Lemma Rleb_false (a b : R) : b < a -> Rleb a b = false.
Proof. intros H. unfold Rleb. destruct (Rle_dec a b); [lra | reflexivity]. Qed.

Lemma out_of_domain_test (lo hi p : R) :
  Rltb p lo || Rgtb p hi = true <-> p < lo \/ p > hi.
Proof.
  unfold Rgtb, Rltb.
  destruct (Rlt_dec p lo), (Rlt_dec hi p); simpl; split; intros H;
    try reflexivity; try discriminate; try lra.
Qed.

Lemma in_domain_test (lo hi p : R) :
  Rltb p lo || Rgtb p hi = false <-> lo <= p <= hi.
Proof.
  unfold Rgtb, Rltb.
  destruct (Rlt_dec p lo), (Rlt_dec hi p); simpl; split; intros H;
    try reflexivity; try discriminate; try lra.
Qed.

(** ** Evaluation *)

Section Evaluation.

Context {SISLCurve : Type} {sisl : SISL SISLCurve}.

(** [getPoint] inside the interval, by the status of [s1227]. *)
Lemma getPoint_run (self : NURBSCurve3D SISLCurve) (_param : R)
    leftknot p0 p1 p2 status :
  start_param self <= _param <= end_param self ->
  s1227 (curve self) 0 _param = (leftknot, (p0, p1, p2), status) ->
  getPoint _param self =
    (if (status =? 0)%Z then Return (mkVector3d p0 p1 p2)
     else Throw (runtime_error "SISL error while computing a curve point"),
     self).
Proof.
  intros Hin Hlib. apply in_domain_test in Hin.
  unfold getPoint. run. rewrite Hin, Hlib.
  destruct (status =? 0)%Z; reflexivity.
Qed.

(** C4.  Inside the closed interval [start_param, end_param], with a curve
    present and SISL reporting status 0, [getPoint] returns the point SISL
    wrote; strictly outside the interval it throws the out-of-range
    exception (DomainError).  Neither case changes the object. *)
Theorem getPoint_domain (self : NURBSCurve3D SISLCurve) (_param : R) :
  (forall c leftknot p0 p1 p2,
      curve self = Some c ->
      start_param self <= _param <= end_param self ->
      s1227 (Some c) 0 _param = (leftknot, (p0, p1, p2), 0%Z) ->
      getPoint _param self = (Return (mkVector3d p0 p1 p2), self))
  /\ (_param < start_param self \/ _param > end_param self ->
      getPoint _param self = (Throw DomainError, self)).
Proof.
  split.
  - intros c leftknot p0 p1 p2 Hc Hin Hlib. rewrite <- Hc in Hlib.
    rewrite (getPoint_run _ _ _ _ _ _ _ Hin Hlib). reflexivity.
  - intros Hout. apply out_of_domain_test in Hout.
    unfold getPoint, bind, this. rewrite Hout. reflexivity.
Qed.

End Evaluation.

Lemma getPoint_domain_witness :
  getPoint (sisl := Ray.lib) (1 / 2) Ray.unit_segment
    = (Return (mkVector3d (- (1 / 2)) 0 0), Ray.unit_segment)
  /\ getPoint (sisl := Ray.lib) 2 Ray.unit_segment
    = (Throw DomainError, Ray.unit_segment).
Proof.
  split.
  - apply (proj1 (getPoint_domain (sisl := Ray.lib) Ray.unit_segment (1 / 2))
             1 0%Z (- (1 / 2)) 0 0).
    + reflexivity.
    + simpl. lra.
    + reflexivity.
  - apply (proj2 (getPoint_domain (sisl := Ray.lib) Ray.unit_segment 2)).
    right. simpl. lra.
Defined.

(** ** Closest-point search *)

Section Search.

Context {SISLCurve : Type} {sisl : SISL SISLCurve}.

Implicit Types (self : NURBSCurve3D SISLCurve) (_pt : Vector3d).

(** What [findClosestPoints] does with each status of [s1953]. *)
Lemma findClosestPoints_run self _pt result_points result_curves _geores
    pts curves status :
  s1953 (curve self) (point_array _pt) DIM _geores _geores = (pts, curves, status) ->
  findClosestPoints _pt result_points result_curves _geores self =
    (if (status =? 0)%Z
     then Return (result_points ++ pts, result_curves ++ map interval_of curves)
     else Throw SearchError, self).
Proof.
  intros Hlib. unfold findClosestPoints. run.
  rewrite Hlib. destruct (status =? 0)%Z; reflexivity.
Qed.

(** C10.  A successful [findClosestPoints] keeps what the two result vectors
    held and pushes the new intervals and points behind it. *)
Theorem findClosestPoints_appends self _pt result_points result_curves _geores
    pts curves :
  s1953 (curve self) (point_array _pt) DIM _geores _geores = (pts, curves, 0%Z) ->
  findClosestPoints _pt result_points result_curves _geores self =
    (Return (result_points ++ pts, result_curves ++ map interval_of curves), self).
Proof.
  intros Hlib. rewrite (findClosestPoints_run _ _ _ _ _ _ _ _ Hlib). reflexivity.
Qed.

(** C6.  When the global search succeeds, [findOneClosestPoint] returns the
    first point if there is one, else the start of the first interval if
    there is one, else it throws the logic error (NoClosestPointError). *)
Theorem findOneClosestPoint_choice self _pt _geores pts curves :
  s1953 (curve self) (point_array _pt) DIM _geores _geores = (pts, curves, 0%Z) ->
  findOneClosestPoint _pt _geores self =
    (match pts, curves with
     | front :: _, _ => Return front
     | [], front :: _ => Return (fst (interval_of front))
     | [], [] => Throw NoClosestPointError
     end, self).
Proof.
  intros Hlib. unfold findOneClosestPoint, bind at 1.
  rewrite (findClosestPoints_run _ _ _ _ _ _ _ _ Hlib). simpl.
  destruct pts as [|p pts']; [destruct curves as [|c curves'] |]; reflexivity.
Qed.

(** C8.  The local search throws exactly when [s1774] reports a negative
    status, and returns the parameter found for every other status, a
    positive one included; the global search throws exactly when [s1953]
    reports a status other than 0. *)
Theorem search_status_conventions self _pt _guess _start _end _geores
    result_points result_curves param status pts curves status' :
  s1774 (curve self) (point_array _pt) DIM _geores _start _end _guess
    = (param, status) ->
  s1953 (curve self) (point_array _pt) DIM _geores _geores
    = (pts, curves, status') ->
  (localClosestPointSearch _pt _guess _start _end _geores self
     = (Throw LocalSearchError, self) <-> (status < 0)%Z)
  /\ (localClosestPointSearch _pt _guess _start _end _geores self
     = (Return param, self) <-> (0 <= status)%Z)
  /\ (findClosestPoints _pt result_points result_curves _geores self
     = (Throw SearchError, self) <-> status' <> 0%Z).
Proof.
  intros Hlocal Hglobal.
  rewrite (findClosestPoints_run _ _ _ _ _ _ _ _ Hglobal).
  unfold localClosestPointSearch. run. rewrite Hlocal.
  destruct (Z.ltb_spec status 0), (Z.eqb_spec status' 0);
    repeat split; intros H'; try reflexivity; try discriminate; try lia;
    try contradiction.
Qed.

(** C9.  [getFrenetFrame] returns the frame made of the three vectors
    [s2559] wrote, whatever status it reported, and [getHeading] returns the
    angle of the first row; neither throws nor changes the object. *)
Theorem getFrenetFrame_never_throws self _param p t0 t1 t2 n0 n1 n2 b0 b1 b2 status :
  s2559 (curve self) _param 1 = (p, (t0, t1, t2), (n0, n1, n2), (b0, b1, b2), status) ->
  getFrenetFrame _param self
    = (Return (mkMatrix3d (mkVector3d t0 t1 t2) (mkVector3d n0 n1 n2)
                 (mkVector3d b0 b1 b2)), self)
  /\ getHeading _param self
    = (Return (atan2 (t1 / sqrt (t0 * t0 + t1 * t1))
                     (t0 / sqrt (t0 * t0 + t1 * t1))), self).
Proof.
  intros Hlib.
  assert (Hframe : getFrenetFrame _param self
    = (Return (mkMatrix3d (mkVector3d t0 t1 t2) (mkVector3d n0 n1 n2)
                 (mkVector3d b0 b1 b2)), self)).
  { unfold getFrenetFrame. run. rewrite Hlib. reflexivity. }
  split; [exact Hframe |].
  unfold getHeading, bind. rewrite Hframe. reflexivity.
Qed.

End Search.

(** The theorems of this section on the unit segment of [Ray], for the
    target (-1/2, 1, 0), whose closest point is at parameter 1/2. *)

Lemma findClosestPoints_appends_witness :
  findClosestPoints (sisl := Ray.lib) (mkVector3d (- (1 / 2)) 1 0)
    [7] [(8, 9)] (1 / 100) Ray.unit_segment
  = (Return ([7] ++ [Ray.clamp 0 1 (- - (1 / 2))], [(8, 9)] ++ []),
     Ray.unit_segment).
Proof.
  apply (findClosestPoints_appends (sisl := Ray.lib) Ray.unit_segment
           (mkVector3d (- (1 / 2)) 1 0) [7] [(8, 9)] (1 / 100)
           [Ray.clamp 0 1 (- - (1 / 2))] []).
  reflexivity.
Defined.

Lemma findOneClosestPoint_choice_witness :
  findOneClosestPoint (sisl := Ray.lib) (mkVector3d (- (1 / 2)) 1 0)
    (1 / 100) Ray.unit_segment
  = (Return (Ray.clamp 0 1 (- - (1 / 2))), Ray.unit_segment).
Proof.
  apply (findOneClosestPoint_choice (sisl := Ray.lib) Ray.unit_segment
           (mkVector3d (- (1 / 2)) 1 0) (1 / 100)
           [Ray.clamp 0 1 (- - (1 / 2))] []).
  reflexivity.
Defined.

Lemma search_status_conventions_witness :
  (localClosestPointSearch (sisl := Ray.lib) (mkVector3d (- (1 / 2)) 1 0)
     0 0 1 (1 / 100) Ray.unit_segment
     = (Throw LocalSearchError, Ray.unit_segment) <-> (0 < 0)%Z)
  /\ (localClosestPointSearch (sisl := Ray.lib) (mkVector3d (- (1 / 2)) 1 0)
     0 0 1 (1 / 100) Ray.unit_segment
     = (Return (Ray.clamp 0 1 (- - (1 / 2))), Ray.unit_segment) <-> (0 <= 0)%Z)
  /\ (findClosestPoints (sisl := Ray.lib) (mkVector3d (- (1 / 2)) 1 0)
     [] [] (1 / 100) Ray.unit_segment
     = (Throw SearchError, Ray.unit_segment) <-> 0%Z <> 0%Z).
Proof.
  apply (search_status_conventions (sisl := Ray.lib) Ray.unit_segment
           (mkVector3d (- (1 / 2)) 1 0) 0 0 1 (1 / 100) [] []
           (Ray.clamp 0 1 (- - (1 / 2))) 0%Z
           [Ray.clamp 0 1 (- - (1 / 2))] [] 0%Z);
    reflexivity.
Defined.

(** A null curve makes [Ray] report status -1 and write nothing useful;
    the frame comes back all the same. *)
Lemma getFrenetFrame_never_throws_witness :
  getFrenetFrame (sisl := Ray.lib) 5 (set_curve None Ray.unit_segment)
    = (Return (mkMatrix3d (mkVector3d 0 0 0) (mkVector3d 0 0 0)
                 (mkVector3d 0 0 0)), set_curve None Ray.unit_segment)
  /\ getHeading (sisl := Ray.lib) 5 (set_curve None Ray.unit_segment)
    = (Return (atan2 (0 / sqrt (0 * 0 + 0 * 0)) (0 / sqrt (0 * 0 + 0 * 0))),
       set_curve None Ray.unit_segment).
Proof.
  apply (getFrenetFrame_never_throws (sisl := Ray.lib)
           (set_curve None Ray.unit_segment) 5 0 0 0 0 0 0 0 0 0 0 (-1)%Z).
  reflexivity.
Defined.

(** ** Cached scalars, fit and clear *)

Section Caching.

Context {SISLCurve : Type} {sisl : SISL SISLCurve}.

Implicit Types (self : NURBSCurve3D SISLCurve).

Lemma getCurveLength_cached self :
  has_curve_length self = true ->
  getCurveLength self = (Return (curve_length self), self).
Proof. intros Hc. unfold getCurveLength. run. rewrite Hc. reflexivity. Qed.

Lemma getCurvatureMax_cached self fuel :
  has_curvature_max self = true ->
  getCurvatureMax fuel self = (Return (curvature_max self), self).
Proof. intros Hc. unfold getCurvatureMax. run. rewrite Hc. reflexivity. Qed.

(** A call that returns leaves the returned value in the cache. *)
Lemma getCurveLength_fills_cache self v self' :
  getCurveLength self = (Return v, self') ->
  has_curve_length self' = true /\ curve_length self' = v.
Proof.
  unfold getCurveLength. run.
  destruct (has_curve_length self) eqn:Hc.
  - intros H. injection H as Hv Hs. subst self'. auto.
  - destruct (s1240 _ _ _) as [len status].
    destruct (status =? 0)%Z; simpl; intros H; [| discriminate].
    injection H as Hv Hs. subst self' v. auto.
Qed.

(** [update], by the status of [s1356]. *)
Lemma update_run self cendpar rc status :
  s1356 (coordinates (points self)) (getPointCount self) DIM
    (ordinary_points (points self)) 0 0 1 (curve_order self) 0 (end_param self)
    = (cendpar, rc, status) ->
  update self =
    (if (status =? 0)%Z then Return tt else Throw FitError,
     set_curve rc (set_end_param cendpar (set_start_param 0 self))).
Proof.
  intros Hlib. unfold update. run.
  destruct (curve self); cbn -[coordinates ordinary_points];
    unfold getPointCount in *; cbn -[coordinates ordinary_points];
    rewrite Hlib; destruct (status =? 0)%Z; reflexivity.
Qed.

Lemma clear_run self :
  clear self = (Return tt, set_points [] (set_curve None self)).
Proof.
  unfold clear. run. destruct self as [c ? ? ? ? ? ? ? ? ?].
  destruct c; reflexivity.
Qed.

(** C7.  When [getCurveLength] has returned a value, the next call on the
    object returns the same value and leaves the object as it is; it does so
    whatever the library would answer, that is, without asking it. *)
Theorem getCurveLength_twice (other : SISL SISLCurve) self v self' :
  getCurveLength (sisl := sisl) self = (Return v, self') ->
  getCurveLength (sisl := sisl) self' = (Return v, self')
  /\ getCurveLength (sisl := other) self' = (Return v, self').
Proof.
  intros Hfirst. apply getCurveLength_fills_cache in Hfirst as [Hflag Hval].
  subst v. split; unfold getCurveLength; run; rewrite Hflag; reflexivity.
Qed.

(** C1, as the code has it.  Neither [update] nor [clear] touches the two
    cache flags or the two cached values, whether the call returns or throws.
    So a length or a maximum curvature that was cached before the call is
    what [getCurveLength] and [getCurvatureMax] return after it. *)
Theorem update_and_clear_keep_caches self (r : outcome unit) self' :
  update self = (r, self') \/ clear self = (r, self') ->
  (has_curve_length self' = has_curve_length self
   /\ curve_length self' = curve_length self
   /\ has_curvature_max self' = has_curvature_max self
   /\ curvature_max self' = curvature_max self)
  /\ (has_curve_length self = true ->
      getCurveLength self' = (Return (curve_length self), self'))
  /\ (has_curvature_max self = true ->
      forall fuel,
        getCurvatureMax fuel self' = (Return (curvature_max self), self')).
Proof.
  intros Hcall.
  assert (Hkeep : has_curve_length self' = has_curve_length self
                  /\ curve_length self' = curve_length self
                  /\ has_curvature_max self' = has_curvature_max self
                  /\ curvature_max self' = curvature_max self).
  { destruct Hcall as [Hupdate | Hclear].
    - destruct (s1356 (coordinates (points self)) (getPointCount self) DIM
                  (ordinary_points (points self)) 0 0 1 (curve_order self) 0
                  (end_param self)) as [[cendpar rc] status] eqn:Hlib.
      rewrite (update_run _ _ _ _ Hlib) in Hupdate.
      injection Hupdate as _ Hs. subst self'. repeat split.
    - rewrite clear_run in Hclear. injection Hclear as _ Hs. subst self'.
      repeat split. }
  destruct Hkeep as (Hfl & Hl & Hfm & Hm).
  repeat split; try assumption.
  - intros Hc. rewrite <- Hl. apply getCurveLength_cached. congruence.
  - intros Hc fuel. rewrite <- Hm. apply getCurvatureMax_cached. congruence.
Qed.


End Caching.

Lemma getCurveLength_twice_witness :
  getCurveLength (sisl := Ray.lib) Ray.measured_segment
    = (Return 1, Ray.measured_segment)
  /\ getCurveLength (sisl := Ray.broken) Ray.measured_segment
    = (Return 1, Ray.measured_segment).
Proof.
  apply (getCurveLength_twice (sisl := Ray.lib) Ray.broken Ray.unit_segment).
  reflexivity.
Defined.

(** Refitting the measured unit segment. *)
Lemma update_and_clear_keep_caches_witness :
  getCurveLength (sisl := Ray.lib) Ray.refitted_segment
    = (Return 1, Ray.refitted_segment).
Proof.
  apply (update_and_clear_keep_caches (sisl := Ray.lib) Ray.measured_segment
           (Return tt) Ray.refitted_segment).
  - left. reflexivity.
  - reflexivity.
Defined.

(** C1 fails as stated.  The unit segment is measured (length 1), a third
    control point (-3, 0, 0) is added and the curve is fitted again.  The
    library gives the new curve the length 3, and [getCurveLength] still
    answers 1, the value cached before the fit. *)
Lemma stale_length_after_update :
  getCurveLength (sisl := Ray.lib) Ray.unit_segment
    = (Return 1, Ray.measured_segment)
  /\ bind (addPoint (mkVector3d (-3) 0 0)) (fun _ => update (sisl := Ray.lib))
       Ray.measured_segment
    = (Return tt, Ray.extended_segment)
  /\ s1240 (SISL := Ray.lib) (curve Ray.extended_segment)
       (geometric_resolution Ray.extended_segment)
       (curve_length Ray.extended_segment)
    = (- -3, 0%Z)
  /\ - -3 = 3
  /\ getCurveLength (sisl := Ray.lib) Ray.extended_segment
    = (Return 1, Ray.extended_segment).
Proof.
  split; [reflexivity |]. split; [reflexivity |]. split; [reflexivity |].
  split; [lra | reflexivity].
Qed.



(** ** Path-tracking errors *)

Lemma PI_gt_3 : 3 < PI.
Proof. pose proof PI2_3_2. lra. Qed.

Lemma M_2_PI_bounds : 0 < M_2_PI < 1.
Proof.
  unfold M_2_PI. pose proof PI_gt_3 as Hpi. split.
  - apply Rdiv_lt_0_compat; lra.
  - apply Rmult_lt_reg_r with PI; [lra |].
    unfold Rdiv. rewrite Rmult_assoc, Rinv_l by lra. lra.
Qed.

Section HeadingError.

Context {SISLCurve : Type} {sisl : SISL SISLCurve}.

Implicit Types (self : NURBSCurve3D SISLCurve).

(** [getHeading] always returns and leaves the object alone. *)
Lemma getHeading_returns self _param :
  exists heading, getHeading _param self = (Return heading, self).
Proof.
  unfold getHeading, getFrenetFrame. run.
  destruct (s2559 _ _ _) as [[[[p [[t0 t1] t2]] [[n0 n1] n2]] [[b0 b1] b2]] st].
  eexists. reflexivity.
Qed.

(** The branch without correction: when the difference between the actual
    heading and the heading of the curve lies between -pi and pi, both ends
    included, [headingError] returns that difference as it is. *)
Theorem headingError_in_range self _actZRot _param heading :
  getHeading _param self = (Return heading, self) ->
  - PI <= _actZRot - heading <= PI ->
  headingError _actZRot _param self = (Return (_actZRot - heading), self).
Proof.
  intros Hheading Hrange. unfold headingError, bind. rewrite Hheading.
  unfold Rgtb, M_PI. rewrite !Rltb_false by lra. reflexivity.
Qed.

(** All three branches: above pi the code takes [M_2_PI] off, below -pi it
    adds [M_2_PI], and [M_2_PI] is 2/pi. *)
Lemma headingError_branches self _actZRot _param heading :
  getHeading _param self = (Return heading, self) ->
  headingError _actZRot _param self =
    (Return (if Rlt_dec PI (_actZRot - heading)
             then _actZRot - heading - 2 / PI
             else if Rlt_dec (_actZRot - heading) (- PI)
                  then _actZRot - heading + 2 / PI
                  else _actZRot - heading), self).
Proof.
  intros Hheading. unfold headingError, bind. rewrite Hheading.
  unfold Rgtb, Rltb, M_PI, M_2_PI.
  destruct (Rlt_dec PI (_actZRot - heading)); [reflexivity |].
  destruct (Rlt_dec (_actZRot - heading) (- PI)); reflexivity.
Qed.

End HeadingError.

(** On every curve of [Ray] the tangent is (-1, 0, 0): the heading is pi. *)
Lemma Ray_heading (self : NURBSCurve3D R) (_param len : R) :
  curve self = Some len ->
  getHeading (sisl := Ray.lib) _param self = (Return PI, self).
Proof.
  intros Hc. unfold getHeading, getFrenetFrame. run. simpl. rewrite Hc.
  simpl. unfold normalize2, norm2. simpl.
  replace (-1 * -1 + 0 * 0) with 1 by lra. rewrite sqrt_1.
  replace (0 / 1) with 0 by lra. replace (-1 / 1) with (- (1)) by lra.
  unfold atan2.
  destruct (Req_dec_T (- (1)) 0) as [Habs | _]; [lra |].
  destruct (Rle_dec 0 0) as [_ | Habs]; [| lra].
  replace (- (1) * - (1) + 0 * 0) with 1 by lra. rewrite sqrt_1.
  replace (- (1) / 1) with (- (1)) by lra.
  rewrite acos_opp, acos_1. f_equal. f_equal. lra.
Qed.

Lemma headingError_in_range_witness :
  headingError (sisl := Ray.lib) 1 0 Ray.unit_segment
    = (Return (1 - PI), Ray.unit_segment).
Proof.
  apply (headingError_in_range (sisl := Ray.lib) Ray.unit_segment 1 0 PI).
  - apply (Ray_heading Ray.unit_segment 0 1). reflexivity.
  - pose proof PI_gt_3. lra.
Defined.

(** C2, where the code departs from it.  The correction of [headingError]
    is [M_2_PI], which is 2/pi and not the full turn 2*pi.  On the unit
    segment of [Ray] the heading is pi; for the actual heading -1 the
    difference is -1 - pi, below -pi.  The code returns -1 - pi + 2/pi,
    which is still below -pi, where the full turn of the claim gives
    pi - 1, inside (-pi, pi]. *)
Lemma headingError_correction_amount :
  headingError (sisl := Ray.lib) (-1) 0 Ray.unit_segment
    = (Return (-1 - PI + 2 / PI), Ray.unit_segment)
  /\ -1 - PI + 2 / PI < - PI
  /\ - PI < -1 - PI + 2 * PI <= PI.
Proof.
  pose proof PI_gt_3 as Hpi. pose proof M_2_PI_bounds as Hc.
  unfold M_2_PI in Hc. split; [| lra].
  unfold headingError, bind.
  rewrite (Ray_heading Ray.unit_segment 0 1 eq_refl).
  unfold Rgtb, M_PI, M_2_PI. rewrite Rltb_false by lra.
  rewrite Rltb_true by lra. reflexivity.
Qed.

(** Two more inputs on the unit segment, where the heading is pi.  For
    the actual heading 0 the difference is -pi, which is not below -pi: it
    is returned as it is.  For the actual heading -10 the difference is below
    -pi, [M_2_PI] is added once, and the result is still below -pi. *)
Lemma headingError_out_of_range :
  (exists e,
      headingError (sisl := Ray.lib) 0 0 Ray.unit_segment
        = (Return e, Ray.unit_segment)
      /\ e = - PI /\ ~ (- PI < e <= PI))
  /\ (exists e,
      headingError (sisl := Ray.lib) (-10) 0 Ray.unit_segment
        = (Return e, Ray.unit_segment)
      /\ e = -10 - PI + 2 / PI /\ ~ (- PI < e <= PI)).
Proof.
  pose proof PI_gt_3 as Hpi. pose proof M_2_PI_bounds as Hc.
  unfold M_2_PI in Hc.
  split.
  - exists (0 - PI). split; [| split; lra].
    unfold headingError, bind.
    rewrite (Ray_heading Ray.unit_segment 0 1 eq_refl).
    unfold Rgtb, M_PI. rewrite !Rltb_false by lra. reflexivity.
  - exists (-10 - PI + 2 / PI). split; [| split; lra].
    unfold headingError, bind.
    rewrite (Ray_heading Ray.unit_segment 0 1 eq_refl).
    unfold Rgtb, M_PI, M_2_PI. rewrite Rltb_false by lra.
    rewrite Rltb_true by lra. reflexivity.
Qed.

(** *** Angles *)

Lemma sqrt_sumsq_pos (x y : R) : x <> 0 \/ y <> 0 -> 0 < sqrt (x * x + y * y).
Proof. intros H. apply sqrt_lt_R0. nra. Qed.

Lemma sqrt_sumsq_sq (x y : R) : sqrt (x * x + y * y) * sqrt (x * x + y * y) = x * x + y * y.
Proof. apply sqrt_sqrt. nra. Qed.

Lemma atan2_cos_sin (x y : R) :
  x <> 0 \/ y <> 0 ->
  cos (atan2 y x) = x / sqrt (x * x + y * y)
  /\ sin (atan2 y x) = y / sqrt (x * x + y * y).
Proof.
  intros Hnz.
  pose proof (sqrt_sumsq_pos x y Hnz) as Hr.
  pose proof (sqrt_sumsq_sq x y) as Hrr.
  remember (sqrt (x * x + y * y)) as r eqn:Er.
  unfold atan2.
  destruct (Req_dec_T x 0) as [Hx | Hx].
  - subst x. destruct (Req_dec_T y 0) as [Hy | Hy]; [lra |].
    destruct (Rle_dec 0 y) as [Hy0 | Hy0].
    + assert (r = y).
      { assert (Hf : (r - y) * (r + y) = 0) by lra.
        apply Rmult_integral in Hf. destruct Hf; lra. }
      rewrite cos_PI2, sin_PI2.
      split; [unfold Rdiv; ring |]. rewrite H. field. lra.
    + assert (r = - y).
      { assert (Hf : (r - y) * (r + y) = 0) by lra.
        apply Rmult_integral in Hf. destruct Hf; lra. }
      rewrite cos_neg, sin_neg, cos_PI2, sin_PI2.
      split; [unfold Rdiv; ring |]. rewrite H. field. lra.
  - rewrite <- Er.
    assert (Hu : -1 <= x / r <= 1).
    { assert (Hxr : x = x / r * r) by (field; lra).
      assert (Hb : - r <= x <= r) by (split; nra).
      generalize dependent (x / r). intros u Hxu. split; nra. }
    assert (Hs : sqrt (1 - (x / r)²) = Rabs (y / r)).
    { rewrite <- sqrt_Rsqr_abs. f_equal. unfold Rsqr.
      field_simplify_eq; [| lra]. nra. }
    destruct (Rle_dec 0 y) as [Hy0 | Hy0].
    + rewrite cos_acos, sin_acos, Hs by assumption.
      split; [reflexivity |]. apply Rabs_pos_eq.
      apply Rmult_le_pos; [assumption |]. left. apply Rinv_0_lt_compat. assumption.
    + rewrite cos_neg, sin_neg, cos_acos, sin_acos, Hs by assumption.
      split; [reflexivity |]. rewrite Rabs_left; [lra |].
      assert (0 < / r) by (apply Rinv_0_lt_compat; assumption).
      unfold Rdiv. nra.
Qed.

Lemma norm2_pos (v : Vector2d) : x2 v <> 0 \/ y2 v <> 0 -> 0 < norm2 v.
Proof. apply sqrt_sumsq_pos. Qed.

Lemma angle_of_cos_sin (v : Vector2d) :
  x2 v <> 0 \/ y2 v <> 0 ->
  cos (angle_of v) = x2 v / norm2 v /\ sin (angle_of v) = y2 v / norm2 v.
Proof.
  intros Hnz. pose proof (norm2_pos v Hnz) as Hr.
  pose proof (sqrt_sumsq_sq (x2 v) (y2 v)) as Hrr. fold (norm2 v) in Hrr.
  unfold angle_of, normalize2. cbn [x2 y2].
  set (r := norm2 v) in *. clearbody r.
  assert (Hunit : x2 v / r * (x2 v / r) + y2 v / r * (y2 v / r) = 1).
  { field_simplify_eq; [| lra]. nra. }
  assert (Hnz' : x2 v / r <> 0 \/ y2 v / r <> 0).
  { assert (0 < / r) by (apply Rinv_0_lt_compat; assumption).
    unfold Rdiv. destruct Hnz as [Hx | Hy]; [left | right]; nra. }
  destruct (atan2_cos_sin _ _ Hnz') as [Hcos Hsin].
  rewrite Hunit, sqrt_1 in Hcos, Hsin.
  rewrite Hcos, Hsin. split; field; lra.
Qed.

Lemma angle_of_origin (v : Vector2d) :
  x2 v = 0 -> y2 v = 0 -> angle_of v = 0.
Proof.
  intros Hx Hy. unfold angle_of, normalize2. cbn [x2 y2].
  rewrite Hx, Hy. unfold Rdiv. rewrite Rmult_0_l. unfold atan2.
  destruct (Req_dec_T 0 0) as [_ | Habs]; [| lra].
  destruct (Req_dec_T 0 0) as [_ | Habs]; [reflexivity | lra].
Qed.

(** The sine of the angle from [t] to [e] is their cross product over the
    product of their lengths. *)
Lemma sin_between (e t : Vector2d) :
  x2 e <> 0 \/ y2 e <> 0 -> x2 t <> 0 \/ y2 t <> 0 ->
  sin (angle_of e - angle_of t)
  = (x2 t * y2 e - y2 t * x2 e) / (norm2 e * norm2 t).
Proof.
  intros He Ht.
  destruct (angle_of_cos_sin e He) as [Hce Hse].
  destruct (angle_of_cos_sin t Ht) as [Hct Hst].
  pose proof (norm2_pos e He). pose proof (norm2_pos t Ht).
  rewrite sin_minus, Hce, Hse, Hct, Hst. field. lra.
Qed.

Lemma sin_sign (a : R) :
  - PI < a < PI -> (0 < a -> 0 < sin a) /\ (a < 0 -> sin a < 0) /\ (a = 0 -> sin a = 0).
Proof.
  intros [Hlo Hhi]. repeat split.
  - intros Hpos. apply sin_gt_0; assumption.
  - intros Hneg. apply sin_lt_0_var; assumption.
  - intros ->. apply sin_0.
Qed.

(** The error vector of the mirror image has the same length and the
    opposite cross product with the direction of the line. *)
Lemma mirror_norm (c : Vector3d) (tx ty : R) (q : Vector3d) :
  tx <> 0 \/ ty <> 0 ->
  norm2 (error_vector (mirror c tx ty q) c) = norm2 (error_vector q c).
Proof.
  intros Ht. unfold norm2, error_vector, mirror. cbn [x2 y2 x3 y3].
  f_equal. field. nra.
Qed.

Lemma mirror_cross (c : Vector3d) (tx ty : R) (q : Vector3d) :
  tx <> 0 \/ ty <> 0 ->
  tx * y2 (error_vector (mirror c tx ty q) c)
  - ty * x2 (error_vector (mirror c tx ty q) c)
  = - (tx * y2 (error_vector q c) - ty * x2 (error_vector q c)).
Proof.
  intros Ht. unfold error_vector, mirror. cbn [x2 y2 x3 y3]. field. nra.
Qed.

Lemma planar_distance_norm (q c : Vector3d) :
  planar_distance q c = norm2 (error_vector q c).
Proof. reflexivity. Qed.

Section DistanceError.

Context {SISLCurve : Type} {sisl : SISL SISLCurve}.

Implicit Types (self : NURBSCurve3D SISLCurve).

Lemma getHeading_run self _param p t0 t1 t2 n b status :
  s2559 (curve self) _param 1 = (p, (t0, t1, t2), n, b, status) ->
  getHeading _param self = (Return (angle_of (mkVector2d t0 t1)), self).
Proof.
  intros Hlib. destruct n as [[n0 n1] n2], b as [[b0 b1] b2].
  unfold getHeading, getFrenetFrame. run. rewrite Hlib. reflexivity.
Qed.

Lemma distanceError_run self _pt _param on_curve heading :
  getPoint _param self = (Return on_curve, self) ->
  getHeading _param self = (Return heading, self) ->
  distanceError _pt _param self =
    (Return (if Rle_dec 0 (angle_of (error_vector _pt on_curve) - heading)
             then planar_distance _pt on_curve
             else - planar_distance _pt on_curve), self).
Proof.
  intros Hpoint Hheading. unfold distanceError, bind at 1.
  rewrite Hpoint. unfold bind. rewrite Hheading.
  assert (Hnorm : norm3 (set_z (sub3 _pt on_curve) 0) = planar_distance _pt on_curve).
  { unfold norm3, planar_distance, set_z, sub3. cbn [x3 y3 z3]. f_equal. ring. }
  rewrite Hnorm. unfold Rgeb, Rleb, ret, angle_of, error_vector, set_z, sub3.
  cbn [x3 y3 z3 x2 y2].
  destruct (Rle_dec 0 _); reflexivity.
Qed.

(** What [distanceError] computes.  With the point of the curve and the tangent
    that SISL gives at the parameter, [distanceError] returns the planar
    distance from the point to the point of the curve, with the sign + when
    the angle of the error vector minus the heading is at least 0 and the
    sign - otherwise.  The mirror image of the point in the tangent line gets
    the opposite result when the tangent has a horizontal part, the angle
    difference is not 0 and it lies strictly between -pi and pi for the point
    and for its mirror image. *)
Theorem distanceError_side self _pt _param on_curve p t0 t1 t2 n b status :
  getPoint _param self = (Return on_curve, self) ->
  s2559 (curve self) _param 1 = (p, (t0, t1, t2), n, b, status) ->
  let heading := angle_of (mkVector2d t0 t1) in
  let relative_angle q := angle_of (error_vector q on_curve) - heading in
  let _pt' := mirror on_curve t0 t1 _pt in
  exists d d',
    distanceError _pt _param self = (Return d, self)
    /\ distanceError _pt' _param self = (Return d', self)
    /\ Rabs d = planar_distance _pt on_curve
    /\ d = (if Rle_dec 0 (relative_angle _pt)
            then planar_distance _pt on_curve
            else - planar_distance _pt on_curve)
    /\ (t0 <> 0 \/ t1 <> 0 ->
        relative_angle _pt <> 0 ->
        - PI < relative_angle _pt < PI ->
        - PI < relative_angle _pt' < PI ->
        d' = - d).
Proof.
  intros Hpoint Hlib heading relative_angle _pt'.
  pose proof (getHeading_run _ _ _ _ _ _ _ _ _ Hlib) as Hheading.
  fold heading in Hheading.
  pose proof (distanceError_run self _pt _param on_curve heading Hpoint Hheading) as Hd.
  pose proof (distanceError_run self _pt' _param on_curve heading Hpoint Hheading) as Hd'.
  fold (relative_angle _pt) in Hd. fold (relative_angle _pt') in Hd'.
  eexists. eexists. split; [exact Hd |]. split; [exact Hd' |].
  assert (Hdist : 0 <= planar_distance _pt on_curve) by apply sqrt_pos.
  split; [| split; [reflexivity |]].
  - destruct (Rle_dec 0 (relative_angle _pt)).
    + apply Rabs_pos_eq. assumption.
    + rewrite Rabs_Ropp. apply Rabs_pos_eq. assumption.
  - intros Ht Hne Ha Ha'.
    assert (Hsame : planar_distance _pt' on_curve = planar_distance _pt on_curve).
    { rewrite !planar_distance_norm. apply mirror_norm. assumption. }
    rewrite Hsame.
    destruct (Req_dec_T (planar_distance _pt on_curve) 0) as [Hzero | Hpos].
    { rewrite Hzero. repeat destruct (Rle_dec 0 _); lra. }
    assert (He : x2 (error_vector _pt on_curve) <> 0 \/ y2 (error_vector _pt on_curve) <> 0).
    { destruct (Req_dec_T (x2 (error_vector _pt on_curve)) 0) as [Hx | Hx]; [| left; assumption].
      destruct (Req_dec_T (y2 (error_vector _pt on_curve)) 0) as [Hy | Hy]; [| right; assumption].
      exfalso. apply Hpos. rewrite planar_distance_norm. unfold norm2.
      rewrite Hx, Hy. replace (0 * 0 + 0 * 0) with 0 by ring. apply sqrt_0. }
    assert (He' : x2 (error_vector _pt' on_curve) <> 0 \/ y2 (error_vector _pt' on_curve) <> 0).
    { destruct (Req_dec_T (x2 (error_vector _pt' on_curve)) 0) as [Hx | Hx]; [| left; assumption].
      destruct (Req_dec_T (y2 (error_vector _pt' on_curve)) 0) as [Hy | Hy]; [| right; assumption].
      exfalso. apply Hpos. rewrite <- Hsame, planar_distance_norm. unfold norm2.
      rewrite Hx, Hy. replace (0 * 0 + 0 * 0) with 0 by ring. apply sqrt_0. }
    assert (Hsin : sin (relative_angle _pt') = - sin (relative_angle _pt)).
    { unfold relative_angle, heading.
      rewrite (sin_between _ (mkVector2d t0 t1) He' Ht).
      rewrite (sin_between _ (mkVector2d t0 t1) He Ht).
      cbn [x2 y2]. unfold _pt'. rewrite mirror_cross, mirror_norm by assumption.
      pose proof (norm2_pos _ He). pose proof (norm2_pos (mkVector2d t0 t1) Ht).
      field. lra. }
    destruct (sin_sign _ Ha) as (Hp & Hn & _).
    destruct (sin_sign _ Ha') as (Hp' & Hn' & Hz').
    destruct (Rle_dec 0 (relative_angle _pt)) as [Hge | Hlt];
      destruct (Rle_dec 0 (relative_angle _pt')) as [Hge' | Hlt'].
    + exfalso. assert (Hgt : 0 < relative_angle _pt) by lra.
      specialize (Hp Hgt). destruct Hge' as [Hgt' | Heq'].
      * specialize (Hp' Hgt'). lra.
      * symmetry in Heq'. specialize (Hz' Heq'). lra.
    + reflexivity.
    + lra.
    + exfalso. assert (Hneg : relative_angle _pt < 0) by lra.
      assert (Hneg' : relative_angle _pt' < 0) by lra.
      specialize (Hn Hneg). specialize (Hn' Hneg'). lra.
Qed.

End DistanceError.

(** *** Angles of vectors along the axes *)

Lemma angle_of_up (v : Vector2d) : x2 v = 0 -> 0 < y2 v -> angle_of v = PI / 2.
Proof.
  intros Hx Hy. pose proof (norm2_pos v (or_intror (Rgt_not_eq _ _ Hy))) as Hr.
  assert (Hinv : 0 < / norm2 v) by (apply Rinv_0_lt_compat; assumption).
  unfold angle_of, normalize2, atan2. cbn [x2 y2]. rewrite Hx.
  destruct (Req_dec_T (0 / norm2 v) 0) as [_ | Habs];
    [| exfalso; apply Habs; unfold Rdiv; ring].
  destruct (Req_dec_T (y2 v / norm2 v) 0) as [Habs | _];
    [unfold Rdiv in Habs; nra |].
  destruct (Rle_dec 0 (y2 v / norm2 v)) as [_ | Habs];
    [reflexivity | unfold Rdiv in Habs; nra].
Qed.

Lemma angle_of_down (v : Vector2d) : x2 v = 0 -> y2 v < 0 -> angle_of v = - (PI / 2).
Proof.
  intros Hx Hy. pose proof (norm2_pos v (or_intror (Rlt_not_eq _ _ Hy))) as Hr.
  assert (Hinv : 0 < / norm2 v) by (apply Rinv_0_lt_compat; assumption).
  unfold angle_of, normalize2, atan2. cbn [x2 y2]. rewrite Hx.
  destruct (Req_dec_T (0 / norm2 v) 0) as [_ | Habs];
    [| exfalso; apply Habs; unfold Rdiv; ring].
  destruct (Req_dec_T (y2 v / norm2 v) 0) as [Habs | _];
    [unfold Rdiv in Habs; nra |].
  destruct (Rle_dec 0 (y2 v / norm2 v)) as [Habs | _];
    [unfold Rdiv in Habs; nra | reflexivity].
Qed.

(** A vector along the x axis: its angle has sine 0 and cosine 1 or -1. *)
Lemma angle_of_right (v : Vector2d) : 0 < x2 v -> y2 v = 0 -> angle_of v = 0.
Proof.
  intros Hx Hy.
  assert (Hr : norm2 v = x2 v).
  { unfold norm2. rewrite Hy. replace (x2 v * x2 v + 0 * 0) with (x2 v * x2 v) by ring.
    apply sqrt_square. lra. }
  unfold angle_of, normalize2, atan2. cbn [x2 y2]. rewrite Hr, Hy.
  replace (x2 v / x2 v) with 1 by (field; lra).
  replace (0 / x2 v) with 0 by (unfold Rdiv; ring).
  destruct (Req_dec_T 1 0) as [Habs | _]; [lra |].
  destruct (Rle_dec 0 0) as [_ | Habs]; [| lra].
  replace (1 * 1 + 0 * 0) with 1 by ring. rewrite sqrt_1.
  replace (1 / 1) with 1 by lra. apply acos_1.
Qed.

Lemma angle_of_left (v : Vector2d) : x2 v < 0 -> y2 v = 0 -> angle_of v = PI.
Proof.
  intros Hx Hy.
  assert (Hr : norm2 v = - x2 v).
  { unfold norm2. rewrite Hy.
    replace (x2 v * x2 v + 0 * 0) with (- x2 v * - x2 v) by ring.
    apply sqrt_square. lra. }
  unfold angle_of, normalize2, atan2. cbn [x2 y2]. rewrite Hr, Hy.
  replace (x2 v / - x2 v) with (- (1)) by (field; lra).
  replace (0 / - x2 v) with 0 by (unfold Rdiv; ring).
  destruct (Req_dec_T (- (1)) 0) as [Habs | _]; [lra |].
  destruct (Rle_dec 0 0) as [_ | Habs]; [| lra].
  replace (- (1) * - (1) + 0 * 0) with 1 by ring. rewrite sqrt_1.
  replace (- (1) / 1) with (- (1)) by lra.
  rewrite acos_opp, acos_1. lra.
Qed.

(** On the eastward unit segment, at parameter 0: the point (0, 1, 0) is at
    angle pi/2 from the heading 0, its mirror image at angle -pi/2. *)
Lemma distanceError_side_witness :
  exists d d',
    distanceError (sisl := Ray.east) (mkVector3d 0 1 0) 0 Ray.east_segment
      = (Return d, Ray.east_segment)
    /\ distanceError (sisl := Ray.east)
         (mirror (mkVector3d 0 0 0) 1 0 (mkVector3d 0 1 0)) 0 Ray.east_segment
      = (Return d', Ray.east_segment)
    /\ Rabs d = planar_distance (mkVector3d 0 1 0) (mkVector3d 0 0 0)
    /\ d' = - d.
Proof.
  pose proof PI_gt_3 as Hpi.
  assert (Hheading : angle_of (mkVector2d 1 0) = 0)
    by (apply angle_of_right; cbn [x2 y2]; lra).
  assert (Hangle : angle_of (error_vector (mkVector3d 0 1 0) (mkVector3d 0 0 0))
                   = PI / 2)
    by (apply angle_of_up; cbn [error_vector x2 y2 x3 y3]; lra).
  assert (Hangle' : angle_of (error_vector
                      (mirror (mkVector3d 0 0 0) 1 0 (mkVector3d 0 1 0))
                      (mkVector3d 0 0 0)) = - (PI / 2)).
  { apply angle_of_down; unfold error_vector, mirror; cbn [x2 y2 x3 y3].
    - field.
    - lra. }
  destruct (distanceError_side (sisl := Ray.east) Ray.east_segment
              (mkVector3d 0 1 0) 0 (mkVector3d 0 0 0) 0 1 0 0
              (0, 1, 0) (0, 0, 1) 0%Z)
    as (d & d' & Hd & Hd' & Habs & _ & Hflip).
  - apply (getPoint_run (sisl := Ray.east) Ray.east_segment 0 0%Z 0 0 0 0%Z).
    + cbn [start_param end_param Ray.east_segment]. lra.
    + reflexivity.
  - reflexivity.
  - exists d, d'. repeat split; try assumption.
    apply Hflip; rewrite ?Hangle, ?Hangle', ?Hheading.
    + left. lra.
    + lra.
    + lra.
    + lra.
Defined.

(** C5, where the code departs from it.  On the unit segment of [Ray] the
    curve starts at the origin and heads west (heading pi).  The point
    (0, -1, 0), on the left of the curve, and its mirror image (0, 1, 0) in
    the tangent line, on the right, both get the distance error -1: the
    differences of the two [atan2] values are -3pi/2 and -pi/2, and the code
    takes the sign of the difference without bringing it back into
    (-pi, pi].  So the sign does not tell the side, and it does not flip.
    The point (-2, 0, 0) lies on the tangent line and gets 2. *)
Lemma distanceError_same_side :
  getPoint (sisl := Ray.lib) 0 Ray.unit_segment
    = (Return Ray.start_point, Ray.unit_segment)
  /\ getHeading (sisl := Ray.lib) 0 Ray.unit_segment = (Return PI, Ray.unit_segment)
  /\ (mirror Ray.start_point (-1) 0 (mkVector3d 0 (-1) 0) = mkVector3d 0 1 0
      /\ distanceError (sisl := Ray.lib) (mkVector3d 0 (-1) 0) 0 Ray.unit_segment
         = (Return (-1), Ray.unit_segment)
      /\ distanceError (sisl := Ray.lib) (mkVector3d 0 1 0) 0 Ray.unit_segment
         = (Return (-1), Ray.unit_segment))
  /\ (mirror Ray.start_point (-1) 0 (mkVector3d (-2) 0 0) = mkVector3d (-2) 0 0
      /\ distanceError (sisl := Ray.lib) (mkVector3d (-2) 0 0) 0 Ray.unit_segment
         = (Return 2, Ray.unit_segment)).
Proof.
  pose proof PI_gt_3 as Hpi.
  assert (Hpoint : getPoint (sisl := Ray.lib) 0 Ray.unit_segment
                   = (Return Ray.start_point, Ray.unit_segment)).
  { apply (getPoint_run (sisl := Ray.lib) Ray.unit_segment 0 0%Z (- 0) 0 0 0%Z).
    - cbn [start_param end_param Ray.unit_segment]. lra.
    - reflexivity. }
  pose proof (Ray_heading Ray.unit_segment 0 1 eq_refl) as Hheading.
  split; [exact Hpoint |]. split; [exact Hheading |].
  split; [split; [| split] | split].
  - unfold mirror, Ray.start_point. cbn [x3 y3 z3]. f_equal; field.
  - rewrite (distanceError_run _ _ _ _ _ Hpoint Hheading).
    rewrite angle_of_down
      by (unfold error_vector, Ray.start_point; cbn [x2 y2 x3 y3]; lra).
    destruct (Rle_dec 0 (- (PI / 2) - PI)) as [Habs | _]; [lra |].
    unfold planar_distance, Ray.start_point. cbn [x3 y3].
    replace ((0 - - 0) * (0 - - 0) + (-1 - 0) * (-1 - 0)) with 1 by ring.
    rewrite sqrt_1. reflexivity.
  - rewrite (distanceError_run _ _ _ _ _ Hpoint Hheading).
    rewrite angle_of_up
      by (unfold error_vector, Ray.start_point; cbn [x2 y2 x3 y3]; lra).
    destruct (Rle_dec 0 (PI / 2 - PI)) as [Habs | _]; [lra |].
    unfold planar_distance, Ray.start_point. cbn [x3 y3].
    replace ((0 - - 0) * (0 - - 0) + (1 - 0) * (1 - 0)) with 1 by ring.
    rewrite sqrt_1. reflexivity.
  - unfold mirror, Ray.start_point. cbn [x3 y3 z3]. f_equal; field.
  - rewrite (distanceError_run _ _ _ _ _ Hpoint Hheading).
    rewrite angle_of_left
      by (unfold error_vector, Ray.start_point; cbn [x2 y2 x3 y3]; lra).
    destruct (Rle_dec 0 (PI - PI)) as [_ | Habs]; [| lra].
    unfold planar_distance, Ray.start_point. cbn [x3 y3].
    replace ((-2 - - 0) * (-2 - - 0) + (0 - 0) * (0 - 0)) with (2 * 2) by ring.
    rewrite sqrt_square by lra. reflexivity.
Qed.

(** * Further properties of NURBSCurve3D.cpp *)

(** ** The sampled maximum of the curvature *)

Section CurvatureMax.

Context {SISLCurve : Type} {sisl : SISL SISLCurve}.

Implicit Types (self : NURBSCurve3D SISLCurve).

Lemma set_curvature_max_same self :
  set_curvature_max (curvature_max self) self = self.
Proof. destruct self. reflexivity. Qed.

(** [getCurvature], case by case. *)
Lemma getCurvature_run self p k status :
  start_param self <= p <= end_param self ->
  s2550 (curve self) p 1 = (k, status) ->
  getCurvature p self =
    (if (status =? 0)%Z then Return k
     else Throw (runtime_error "SISL error while computing a curvature"), self).
Proof.
  intros Hin Hlib. apply in_domain_test in Hin.
  unfold getCurvature. run. rewrite Hin, Hlib.
  destruct (status =? 0)%Z; reflexivity.
Qed.

Lemma getCurvature_outside self p :
  p < start_param self \/ p > end_param self ->
  getCurvature p self = (Throw DomainError, self).
Proof.
  intros Hout. apply out_of_domain_test in Hout.
  unfold getCurvature. run. rewrite Hout. reflexivity.
Qed.

Lemma getCurvature_unchanged self p : snd (getCurvature p self) = self.
Proof.
  unfold getCurvature. run.
  destruct (Rltb p (start_param self) || Rgtb p (end_param self)); [reflexivity |].
  destruct (s2550 _ _ _) as [k status]. destruct (status =? 0)%Z; reflexivity.
Qed.

Lemma getCurvature_returned self p k self1 :
  getCurvature p self = (Return k, self1) ->
  self1 = self /\ start_param self <= p <= end_param self
  /\ s2550 (curve self) p 1 = (k, 0%Z).
Proof.
  unfold getCurvature. run.
  destruct (Rltb p (start_param self) || Rgtb p (end_param self)) eqn:Hdom;
    [discriminate |].
  apply in_domain_test in Hdom.
  destruct (s2550 _ _ _) as [k' status]. destruct (Z.eqb_spec status 0);
    simpl; intros H; [| discriminate].
  injection H as -> <-. subst status. auto.
Qed.

(** The loop, one round. *)
Lemma curvature_loop_exit fuel d p self :
  end_param self < p -> curvature_loop fuel d p self = (Return tt, self).
Proof.
  intros Hp. destruct fuel; cbn [curvature_loop]; run;
    rewrite (Rleb_false _ _ Hp); reflexivity.
Qed.

Lemma curvature_loop_round fuel d p self k :
  start_param self <= p <= end_param self ->
  s2550 (curve self) p 1 = (k, 0%Z) ->
  curvature_loop (S fuel) d p self
  = curvature_loop fuel d (p + d)
      (set_curvature_max (Rmax (curvature_max self) k) self).
Proof.
  intros Hin Hlib. cbn [curvature_loop]. unfold bind at 1. unfold this at 1.
  rewrite (Rleb_true _ _ (proj2 Hin)). unfold bind at 1.
  rewrite (getCurvature_run _ _ _ _ Hin Hlib). cbn [Z.eqb].
  unfold bind at 1. unfold this at 1. unfold bind at 1.
  unfold Rgtb, Rltb, Rmax.
  destruct (Rlt_dec (curvature_max self) k) as [Hlt | Hge];
    destruct (Rle_dec (curvature_max self) k) as [Hle | Hgt]; try lra.
  - reflexivity.
  - unfold ret. assert (k = curvature_max self) as -> by lra.
    rewrite set_curvature_max_same. reflexivity.
  - unfold ret. rewrite set_curvature_max_same. reflexivity.
Qed.

(** The loop changes [curvature_max] only, and only upwards. *)
Lemma curvature_loop_frame fuel d :
  forall p self (r : outcome unit) self',
    curvature_loop fuel d p self = (r, self') ->
    exists m, self' = set_curvature_max m self /\ curvature_max self <= m.
Proof.
  induction fuel as [| fuel IH]; intros p self r self' Hrun.
  - cbn [curvature_loop] in Hrun. revert Hrun. run.
    destruct (Rleb p (end_param self)); intros H; injection H as _ <-;
      exists (curvature_max self); rewrite set_curvature_max_same; split;
      try reflexivity; lra.
  - destruct (Rle_dec p (end_param self)) as [Hle | Hgt].
    + destruct (getCurvature p self) as [[k | e |] s1] eqn:Hget.
      * apply getCurvature_returned in Hget as (-> & Hin & Hlib).
        rewrite (curvature_loop_round _ _ _ _ _ Hin Hlib) in Hrun.
        apply IH in Hrun as (m & -> & Hm). exists m. split; [reflexivity |].
        cbn [curvature_max set_curvature_max] in Hm.
        pose proof (Rmax_l (curvature_max self) k). lra.
      * pose proof (getCurvature_unchanged self p) as Hs. rewrite Hget in Hs.
        simpl in Hs. subst s1.
        cbn [curvature_loop] in Hrun. revert Hrun. unfold bind at 1.
        unfold this at 1. rewrite (Rleb_true _ _ Hle). unfold bind at 1.
        rewrite Hget. intros H. injection H as _ <-.
        exists (curvature_max self). rewrite set_curvature_max_same.
        split; [reflexivity | lra].
      * pose proof (getCurvature_unchanged self p) as Hs. rewrite Hget in Hs.
        simpl in Hs. subst s1.
        cbn [curvature_loop] in Hrun. revert Hrun. unfold bind at 1.
        unfold this at 1. rewrite (Rleb_true _ _ Hle). unfold bind at 1.
        rewrite Hget. intros H. injection H as _ <-.
        exists (curvature_max self). rewrite set_curvature_max_same.
        split; [reflexivity | lra].
    + rewrite curvature_loop_exit in Hrun by lra. injection Hrun as _ <-.
      exists (curvature_max self). rewrite set_curvature_max_same.
      split; [reflexivity | lra].
Qed.

(** When the loop returns, every sample it took is below the maximum. *)
Lemma curvature_loop_samples fuel d :
  forall p self self',
    curvature_loop fuel d p self = (Return tt, self') ->
    forall k : nat,
      (forall j, (j <= k)%nat -> p + INR j * d <= end_param self) ->
      fst (s2550 (curve self) (p + INR k * d) 1) <= curvature_max self'.
Proof.
  induction fuel as [| fuel IH]; intros p self self' Hrun k Hk.
  - exfalso. assert (Hp : p <= end_param self).
    { specialize (Hk 0%nat (Nat.le_0_l k)). simpl in Hk. lra. }
    cbn [curvature_loop] in Hrun. revert Hrun. run.
    rewrite (Rleb_true _ _ Hp). discriminate.
  - assert (Hp : p <= end_param self).
    { specialize (Hk 0%nat (Nat.le_0_l k)). simpl in Hk. lra. }
    destruct (getCurvature p self) as [[c | e |] s1] eqn:Hget.
    + apply getCurvature_returned in Hget as (-> & Hin & Hlib).
      rewrite (curvature_loop_round _ _ _ _ _ Hin Hlib) in Hrun.
      destruct k as [| k].
      * apply curvature_loop_frame in Hrun as (m & -> & Hm).
        cbn [curvature_max set_curvature_max] in Hm |- *.
        replace (p + INR 0 * d) with p by (simpl; lra).
        rewrite Hlib. cbn [fst].
        pose proof (Rmax_r (curvature_max self) c). lra.
      * specialize (IH _ _ _ Hrun k).
        cbn [curve end_param set_curvature_max] in IH.
        replace (p + INR (S k) * d) with (p + d + INR k * d)
          by (rewrite S_INR; lra).
        apply IH. intros j Hj. specialize (Hk (S j) (le_n_S _ _ Hj)).
        rewrite S_INR in Hk. lra.
    + exfalso. cbn [curvature_loop] in Hrun. revert Hrun. unfold bind at 1.
      unfold this at 1. rewrite (Rleb_true _ _ Hp). unfold bind at 1.
      rewrite Hget. discriminate.
    + exfalso. cbn [curvature_loop] in Hrun. revert Hrun. unfold bind at 1.
      unfold this at 1. rewrite (Rleb_true _ _ Hp). unfold bind at 1.
      rewrite Hget. discriminate.
Qed.

(** With a positive step and SISL answering on the interval, [n] rounds of
    fuel are enough as soon as the [n]-th sample would lie beyond the end. *)
Lemma curvature_loop_ends d (n : nat) :
  0 < d ->
  forall p self,
    (forall q, start_param self <= q <= end_param self ->
       snd (s2550 (curve self) q 1) = 0%Z) ->
    start_param self <= p ->
    end_param self < p + INR n * d ->
    exists m, forall more,
      curvature_loop (n + more) d p self = (Return tt, set_curvature_max m self).
Proof.
  intros Hd. induction n as [| n IH]; intros p self Hlib Hp Hn.
  - exists (curvature_max self). intros more. rewrite set_curvature_max_same.
    apply curvature_loop_exit. simpl in Hn. lra.
  - destruct (Rle_dec p (end_param self)) as [Hle | Hgt].
    + destruct (s2550 (curve self) p 1) as [k status] eqn:Hk.
      assert (Hstatus : status = 0%Z).
      { specialize (Hlib p (conj Hp Hle)). rewrite Hk in Hlib. exact Hlib. }
      subst status.
      destruct (IH (p + d)
                  (set_curvature_max (Rmax (curvature_max self) k) self))
        as [m Hm].
      * exact Hlib.
      * cbn [start_param set_curvature_max]. lra.
      * cbn [end_param set_curvature_max]. rewrite S_INR in Hn. lra.
      * exists m. intros more. cbn [Nat.add].
        rewrite (curvature_loop_round _ _ _ _ _ (conj Hp Hle) Hk).
        rewrite Hm. reflexivity.
    + exists (curvature_max self). intros more. rewrite set_curvature_max_same.
      apply curvature_loop_exit. lra.
Qed.

(** [getCurveLength] and [getUnitParameter] touch the length cache only. *)
Lemma getCurveLength_frame self (r : outcome R) self1 :
  getCurveLength self = (r, self1) ->
  exists b l, self1 = set_has_curve_length b (set_curve_length l self).
Proof.
  unfold getCurveLength. run. destruct self as [c g o pts s e hl l hm m].
  cbn [has_curve_length curve geometric_resolution curve_length].
  destruct hl.
  - intros H. injection H as _ <-. exists true, l. reflexivity.
  - destruct (s1240 _ _ _) as [len status].
    destruct (status =? 0)%Z; simpl; intros H; injection H as _ <-.
    + exists true, len. reflexivity.
    + exists false, len. reflexivity.
Qed.

Lemma getUnitParameter_frame self (r : outcome R) self1 :
  getUnitParameter self = (r, self1) ->
  exists b l, self1 = set_has_curve_length b (set_curve_length l self).
Proof.
  unfold getUnitParameter. unfold bind at 1. unfold this at 1. unfold bind.
  destruct (getCurveLength self) as [[len | e |] s1] eqn:Hlen;
    intros H; injection H as _ <-; eapply getCurveLength_frame; exact Hlen.
Qed.

(** [getCurvatureMax] without a cached value, once the unit parameter is
    known: the loop runs from [start_param] on the object with maximum 0. *)
Lemma getCurvatureMax_run fuel self u self1 :
  has_curvature_max self = false ->
  getUnitParameter self = (Return u, self1) ->
  getCurvatureMax fuel self =
    match curvature_loop fuel (u * geometric_resolution self) (start_param self)
            (set_curvature_max 0 self1) with
    | (Return _, s) => (Return (curvature_max s), set_has_curvature_max true s)
    | (Throw e, s) => (Throw e, s)
    | (Spin, s) => (Spin, s)
    end.
Proof.
  intros Hflag Hunit.
  destruct (getUnitParameter_frame _ _ _ Hunit) as (b & l & Hs1).
  unfold getCurvatureMax. unfold bind at 1. unfold this at 1. rewrite Hflag.
  unfold bind at 1. rewrite Hunit. unfold bind at 1. unfold this at 1.
  unfold bind at 1. unfold assign at 1. unfold bind at 1.
  replace (geometric_resolution self1) with (geometric_resolution self)
    by (rewrite Hs1; reflexivity).
  replace (start_param self1) with (start_param self)
    by (rewrite Hs1; reflexivity).
  destruct (curvature_loop _ _ _ _) as [[[] | e |] s]; reflexivity.
Qed.

End CurvatureMax.


Section Queries.

Context {SISLCurve : Type} {sisl : SISL SISLCurve}.

Variable s2556 : option SISLCurve -> R -> Z -> R * Z.

Implicit Types (self : NURBSCurve3D SISLCurve) (_pt : Vector3d).

(** X1.  [getCurvature] and [getVariationOfCurvature] throw the out-of-range
    exception for a parameter outside [start_param, end_param], before SISL
    is asked; inside, they return what SISL wrote when its status is 0 and
    throw a runtime error for every other status, a warning included. *)
Theorem curvature_queries_guard self _param k st v st' :
  s2550 (curve self) _param 1 = (k, st) ->
  s2556 (curve self) _param 1 = (v, st') ->
  (_param < start_param self \/ _param > end_param self ->
     getCurvature _param self = (Throw DomainError, self)
     /\ getVariationOfCurvature s2556 _param self = (Throw DomainError, self))
  /\ (start_param self <= _param <= end_param self ->
     getCurvature _param self
       = (if (st =? 0)%Z then Return k
          else Throw (runtime_error "SISL error while computing a curvature"),
          self)
     /\ getVariationOfCurvature s2556 _param self
       = (if (st' =? 0)%Z then Return v
          else Throw (runtime_error
                        "SISL error while computing a variation of curvature"),
          self)).
Proof.
  intros Hk Hv. split.
  - intros Hout. apply out_of_domain_test in Hout.
    unfold getCurvature, getVariationOfCurvature. run. rewrite Hout. auto.
  - intros Hin. apply in_domain_test in Hin.
    unfold getCurvature, getVariationOfCurvature. run. rewrite Hin, Hk, Hv.
    destruct (st =? 0)%Z, (st' =? 0)%Z; auto.
Qed.

(** Each query leaves the object as it was. *)
Lemma getPoint_unchanged self p : snd (getPoint p self) = self.
Proof.
  unfold getPoint. run.
  destruct (Rltb p (start_param self) || Rgtb p (end_param self)); [reflexivity |].
  destruct (s1227 _ _ _) as [[lk [[p0 p1] p2]] status].
  destruct (status =? 0)%Z; reflexivity.
Qed.

Lemma getVariationOfCurvature_unchanged self p :
  snd (getVariationOfCurvature s2556 p self) = self.
Proof.
  unfold getVariationOfCurvature. run.
  destruct (Rltb p (start_param self) || Rgtb p (end_param self)); [reflexivity |].
  destruct (s2556 _ _ _) as [k status]. destruct (status =? 0)%Z; reflexivity.
Qed.

Lemma getFrenetFrame_returns self p :
  exists frame, getFrenetFrame p self = (Return frame, self).
Proof.
  unfold getFrenetFrame. run.
  destruct (s2559 _ _ _) as [[[[q [[t0 t1] t2]] [[n0 n1] n2]] [[b0 b1] b2]] status].
  eexists. reflexivity.
Qed.

Lemma headingError_returns self actual p :
  exists e, headingError actual p self = (Return e, self).
Proof.
  destruct (getHeading_returns self p) as [h Hh]. unfold headingError, bind.
  rewrite Hh. destruct (Rgtb _ _); [eexists; reflexivity |].
  destruct (Rltb _ _); eexists; reflexivity.
Qed.

Lemma distanceError_unchanged self _pt p : snd (distanceError _pt p self) = self.
Proof.
  unfold distanceError, bind at 1. pose proof (getPoint_unchanged self p) as Hp.
  destruct (getPoint p self) as [[oc | e |] s1]; simpl in Hp; subst s1;
    try reflexivity.
  destruct (getHeading_returns self p) as [h Hh]. unfold bind. rewrite Hh.
  destruct (Rgeb _ _); reflexivity.
Qed.

Lemma findClosestPoints_unchanged self _pt pts crvs geores :
  snd (findClosestPoints _pt pts crvs geores self) = self.
Proof.
  unfold findClosestPoints. run.
  destruct (s1953 _ _ _ _ _) as [[ps cs] status].
  destruct (status =? 0)%Z; reflexivity.
Qed.

Lemma localClosestPointSearch_unchanged self _pt guess lo hi geores :
  snd (localClosestPointSearch _pt guess lo hi geores self) = self.
Proof.
  unfold localClosestPointSearch. run.
  destruct (s1774 _ _ _ _ _ _ _) as [param status].
  destruct (status <? 0)%Z; reflexivity.
Qed.

(** X2.  The functions that evaluate or search the curve leave the object
    as it was, whether they return or throw. *)
Theorem queries_leave_object self _pt (a b c d : R)
    (result_points : list R) (result_curves : list (R * R)) :
  snd (getPoint a self) = self
  /\ snd (getCurvature a self) = self
  /\ snd (getVariationOfCurvature s2556 a self) = self
  /\ snd (getFrenetFrame a self) = self
  /\ snd (getHeading a self) = self
  /\ snd (headingError b a self) = self
  /\ snd (distanceError _pt a self) = self
  /\ snd (findClosestPoints _pt result_points result_curves a self) = self
  /\ snd (findOneClosestPoint _pt a self) = self
  /\ snd (localClosestPointSearch _pt a b c d self) = self.
Proof.
  repeat split.
  - apply getPoint_unchanged.
  - apply getCurvature_unchanged.
  - apply getVariationOfCurvature_unchanged.
  - destruct (getFrenetFrame_returns self a) as [f Hf]. rewrite Hf. reflexivity.
  - destruct (getHeading_returns self a) as [h Hh]. rewrite Hh. reflexivity.
  - destruct (headingError_returns self b a) as [e He]. rewrite He. reflexivity.
  - apply distanceError_unchanged.
  - apply findClosestPoints_unchanged.
  - unfold findOneClosestPoint, bind.
    pose proof (findClosestPoints_unchanged self _pt [] [] a) as Hs.
    destruct (findClosestPoints _pt [] [] a self) as [[[ps cs] | e |] s1];
      simpl in Hs; subst s1; try reflexivity.
    destruct ps; [destruct cs |]; reflexivity.
  - apply localClosestPointSearch_unchanged.
Qed.

(** X3.  When the global search fails, [findOneClosestPoint] throws the
    search error of [findClosestPoints], not the logic error it keeps for
    an empty result; so does the overload without a tolerance. *)
Theorem findOneClosestPoint_search_failure self _pt _geores pts curves status :
  s1953 (curve self) (point_array _pt) DIM _geores _geores = (pts, curves, status) ->
  status <> 0%Z ->
  findOneClosestPoint _pt _geores self = (Throw SearchError, self)
  /\ (_geores = geometric_resolution self ->
      findOneClosestPoint_default _pt self = (Throw SearchError, self)).
Proof.
  intros Hlib Hstatus.
  assert (H : findOneClosestPoint _pt _geores self = (Throw SearchError, self)).
  { unfold findOneClosestPoint, bind at 1.
    rewrite (findClosestPoints_run _ _ _ _ _ _ _ _ Hlib).
    apply Z.eqb_neq in Hstatus. rewrite Hstatus. reflexivity. }
  split; [exact H |].
  intros Hres. unfold findOneClosestPoint_default, bind at 1. unfold this.
  rewrite <- Hres. exact H.
Qed.

End Queries.

(** ** Control points and the arrays of the fit *)

Lemma coordinates_app (pts more : list Vector3d) :
  coordinates (pts ++ more) = coordinates pts ++ coordinates more.
Proof. unfold coordinates. apply flat_map_app. Qed.

Lemma coordinates_length (pts : list Vector3d) :
  List.length (coordinates pts) = (3 * List.length pts)%nat.
Proof.
  induction pts as [| p pts IH]; [reflexivity |].
  change (coordinates (p :: pts)) with ([x3 p; y3 p; z3 p] ++ coordinates pts).
  rewrite length_app, IH. simpl. lia.
Qed.

Lemma coordinates_nth (pts : list Vector3d) (i : nat) (p : Vector3d) :
  nth_error pts i = Some p ->
  nth_error (coordinates pts) (3 * i) = Some (x3 p)
  /\ nth_error (coordinates pts) (3 * i + 1) = Some (y3 p)
  /\ nth_error (coordinates pts) (3 * i + 2) = Some (z3 p).
Proof.
  revert i. induction pts as [| q pts IH]; intros i Hi.
  - destruct i; discriminate.
  - destruct i as [| i].
    + injection Hi as ->. repeat split.
    + simpl in Hi. specialize (IH i Hi).
      replace (3 * S i)%nat with (S (S (S (3 * i)))) by lia.
      exact IH.
Qed.

Section Points.

Context {SISLCurve : Type} {sisl : SISL SISLCurve}.

Implicit Types (self : NURBSCurve3D SISLCurve).

(** X4.  [addPoint] puts the point behind the control points the object has
    and touches nothing else: the curve, the parameter interval and the
    caches stay as they are until [update] is called.  The array [update]
    then hands to SISL has three coordinates per control point, x, y and z,
    in the order the points were added, and one type flag 1 per point. *)
Theorem addPoint_then_fit_arrays self pt :
  addPoint pt self = (Return tt, set_points (points self ++ [pt]) self)
  /\ getPointCount (set_points (points self ++ [pt]) self)
     = (getPointCount self + 1)%Z
  /\ coordinates (points self ++ [pt])
     = coordinates (points self) ++ [x3 pt; y3 pt; z3 pt]
  /\ Z.of_nat (List.length (coordinates (points self)))
     = (DIM * getPointCount self)%Z
  /\ Z.of_nat (List.length (ordinary_points (points self))) = getPointCount self
  /\ (forall flag, In flag (ordinary_points (points self)) -> flag = 1%Z)
  /\ (forall i p, nth_error (points self) i = Some p ->
        nth_error (coordinates (points self)) (3 * i) = Some (x3 p)
        /\ nth_error (coordinates (points self)) (3 * i + 1) = Some (y3 p)
        /\ nth_error (coordinates (points self)) (3 * i + 2) = Some (z3 p)).
Proof.
  split; [reflexivity |]. split.
  { unfold getPointCount. cbn [points set_points]. rewrite length_app.
    simpl. lia. }
  split; [apply coordinates_app |]. split.
  { rewrite coordinates_length. unfold DIM, getPointCount. lia. }
  split.
  { unfold ordinary_points, getPointCount. rewrite length_map. reflexivity. }
  split.
  { unfold ordinary_points. intros flag Hin. apply in_map_iff in Hin.
    destruct Hin as [p [Hp _]]. auto. }
  intros i p Hi. apply coordinates_nth. exact Hi.
Qed.

(** X5.  [simplify] throws its "not initialized" error, without asking SISL
    and without changing the object, whenever the object holds no curve; that
    is the case of a freshly created object and of every object after
    [clear].  [clear] leaves no curve and no control point, and a second
    [clear] changes nothing more. *)
Theorem simplify_needs_curve self tolerance :
  (curve self = None ->
     simplify tolerance self = (Throw NotInitializedError, self))
  /\ (forall res order pts a b,
        simplify tolerance (create res order pts a b)
        = (Throw NotInitializedError, create res order pts a b))
  /\ (forall cleared, clear self = (Return tt, cleared) ->
        curve cleared = None /\ points cleared = [] /\ getPointCount cleared = 0%Z
        /\ simplify tolerance cleared = (Throw NotInitializedError, cleared)
        /\ clear cleared = (Return tt, cleared)).
Proof.
  assert (Hnone : forall s : NURBSCurve3D SISLCurve, curve s = None ->
            simplify tolerance s = (Throw NotInitializedError, s)).
  { intros s Hc. unfold simplify. run. rewrite Hc. reflexivity. }
  split; [apply Hnone |]. split.
  { intros. apply Hnone. reflexivity. }
  intros cleared Hclear. rewrite clear_run in Hclear.
  injection Hclear as <-. repeat split.
Qed.

(** X6.  Whatever [simplify] comes to, it changes nothing but the curve: the
    control points, the parameter interval and the caches are as before.  So
    a length cached for the curve before the simplification is what
    [getCurveLength] returns for the simplified curve. *)
Theorem simplify_keeps_interval_and_caches self tolerance
    (r : outcome (list R)) self' :
  simplify tolerance self = (r, self') ->
  self' = set_curve (curve self') self
  /\ (has_curve_length self = true ->
      getCurveLength self' = (Return (curve_length self), self')).
Proof.
  intros Hrun.
  assert (Hframe : self' = set_curve (curve self') self).
  { revert Hrun. unfold simplify. run. destruct self as [c g o p s e hl l hm m].
    cbn [curve curve_order]. destruct c as [c |].
    - destruct (s1940 _ _ _ _ _ _) as [[result [[m0 m1] m2]] st].
      destruct (st =? 0)%Z; simpl; intros H; injection H as _ <-; reflexivity.
    - intros H. injection H as _ <-. reflexivity. }
  split; [exact Hframe |].
  intros Hc.
  assert (Hflag : has_curve_length self' = true)
    by (rewrite Hframe; exact Hc).
  assert (Hlen : curve_length self' = curve_length self)
    by (rewrite Hframe; reflexivity).
  rewrite <- Hlen. apply getCurveLength_cached. exact Hflag.
Qed.

Variable copyCurve : SISLCurve -> SISLCurve.

(** X7.  A copy holds a curve exactly when the source does, and then it is
    the curve [copyCurve] made of the source's; everything else, the caches
    included, is the source's: a length the source had cached is what
    the copy returns, without asking SISL. *)
Theorem copy_keeps_caches (source : NURBSCurve3D SISLCurve) :
  (curve (copy copyCurve source) = None <-> curve source = None)
  /\ (forall c, curve source = Some c ->
        curve (copy copyCurve source) = Some (copyCurve c))
  /\ copy copyCurve source = set_curve (curve (copy copyCurve source)) source
  /\ (has_curve_length source = true ->
      getCurveLength (copy copyCurve source)
      = (Return (curve_length source), copy copyCurve source))
  /\ (has_curvature_max source = true -> forall fuel,
      getCurvatureMax fuel (copy copyCurve source)
      = (Return (curvature_max source), copy copyCurve source)).
Proof.
  split.
  { unfold copy. cbn [curve]. destruct (curve source); split; intros H;
      try reflexivity; discriminate. }
  split.
  { intros c Hc. unfold copy. cbn [curve]. rewrite Hc. reflexivity. }
  split; [reflexivity |]. split.
  - intros Hc. apply (getCurveLength_cached (copy copyCurve source)). exact Hc.
  - intros Hc fuel. apply (getCurvatureMax_cached (copy copyCurve source)). exact Hc.
Qed.

End Points.

Section CurvatureMaxResults.

Context {SISLCurve : Type} {sisl : SISL SISLCurve}.

Implicit Types (self : NURBSCurve3D SISLCurve).

(** X8.  When [getCurvatureMax] computes and returns a value, the value is
    at least 0 and at least the curvature SISL gives at every sample
    [start_param + k * delPara] that the loop reached before passing
    [end_param]; the value is cached, and later calls return it. *)
Theorem getCurvatureMax_bounds fuel self u self1 v self' :
  has_curvature_max self = false ->
  getUnitParameter self = (Return u, self1) ->
  getCurvatureMax fuel self = (Return v, self') ->
  0 <= v
  /\ (forall k : nat,
        (forall j, (j <= k)%nat ->
           start_param self + INR j * (u * geometric_resolution self)
           <= end_param self) ->
        fst (s2550 (curve self)
               (start_param self + INR k * (u * geometric_resolution self)) 1)
        <= v)
  /\ has_curvature_max self' = true
  /\ curvature_max self' = v
  /\ (forall fuel', getCurvatureMax fuel' self' = (Return v, self')).
Proof.
  intros Hflag Hunit Hrun.
  destruct (getUnitParameter_frame _ _ _ Hunit) as (b & l & Hs1).
  rewrite (getCurvatureMax_run _ _ _ _ Hflag Hunit) in Hrun.
  destruct (curvature_loop _ _ _ _) as [[[] | e |] s] eqn:Hloop;
    try discriminate.
  injection Hrun as <- <-.
  destruct (curvature_loop_frame _ _ _ _ _ _ Hloop) as (m & Hs & Hm).
  cbn [curvature_max set_curvature_max] in Hm.
  split; [rewrite Hs; cbn [curvature_max set_curvature_max]; exact Hm |].
  split.
  { intros k Hk.
    pose proof (curvature_loop_samples _ _ _ _ _ Hloop k) as Hsample.
    cbn [curve end_param set_curvature_max] in Hsample.
    replace (curve self1) with (curve self) in Hsample
      by (rewrite Hs1; reflexivity).
    replace (end_param self1) with (end_param self) in Hsample
      by (rewrite Hs1; reflexivity).
    apply Hsample. exact Hk. }
  split; [reflexivity |]. split; [reflexivity |].
  intros fuel'.
  apply (getCurvatureMax_cached (set_has_curvature_max true s) fuel').
  reflexivity.
Qed.

(** X9.  With a positive step and SISL accepting every parameter of the
    interval, [getCurvatureMax] returns: there is a number of rounds from
    which on more fuel does not change the answer. *)
Theorem getCurvatureMax_returns self u self1 :
  has_curvature_max self = false ->
  getUnitParameter self = (Return u, self1) ->
  0 < u * geometric_resolution self ->
  (forall p, start_param self <= p <= end_param self ->
     snd (s2550 (curve self) p 1) = 0%Z) ->
  exists fuel v self', forall more,
    getCurvatureMax (fuel + more) self = (Return v, self').
Proof.
  intros Hflag Hunit Hd Hlib.
  destruct (getUnitParameter_frame _ _ _ Hunit) as (b & l & Hs1).
  set (d := u * geometric_resolution self) in *.
  set (x := (end_param self - start_param self) / d).
  assert (Hx : end_param self - start_param self = x * d)
    by (unfold x; field; lra).
  destruct (archimed x) as [Hup _].
  set (n := Z.to_nat (up x)).
  assert (Hn : end_param self < start_param self + INR n * d).
  { destruct (Z_lt_le_dec 0 (up x)) as [Hpos | Hneg].
    - assert (Hnx : INR n = IZR (up x))
        by (unfold n; rewrite INR_IZR_INZ, Z2Nat.id by lia; reflexivity).
      rewrite Hnx. nra.
    - assert (Hn0 : n = 0%nat) by (unfold n; lia).
      rewrite Hn0. simpl. apply IZR_le in Hneg. nra. }
  destruct (curvature_loop_ends d n Hd (start_param self)
              (set_curvature_max 0 self1)) as [m Hm].
  - cbn [start_param end_param curve set_curvature_max].
    rewrite Hs1. exact Hlib.
  - cbn [start_param set_curvature_max]. rewrite Hs1. simpl. lra.
  - cbn [end_param set_curvature_max]. rewrite Hs1. exact Hn.
  - exists n. eexists. eexists. intros more.
    rewrite (getCurvatureMax_run _ _ _ _ Hflag Hunit). fold d.
    rewrite Hm. reflexivity.
Qed.

(** X10.  With a step of 0 (a resolution of 0, say) on a non-empty interval
    whose first parameter SISL accepts, [getCurvatureMax] samples
    [start_param] for ever: no amount of fuel brings it to an end. *)
Theorem getCurvatureMax_zero_step_never_ends self u self1 :
  has_curvature_max self = false ->
  getUnitParameter self = (Return u, self1) ->
  u * geometric_resolution self = 0 ->
  start_param self <= end_param self ->
  snd (s2550 (curve self) (start_param self) 1) = 0%Z ->
  forall fuel, fst (getCurvatureMax fuel self) = Spin.
Proof.
  intros Hflag Hunit Hd Hdom Hlib fuel.
  destruct (getUnitParameter_frame _ _ _ Hunit) as (b & l & Hs1).
  rewrite (getCurvatureMax_run _ _ _ _ Hflag Hunit). rewrite Hd.
  assert (Hloop : forall s : NURBSCurve3D SISLCurve,
             curve s = curve self -> start_param s = start_param self ->
             end_param s = end_param self ->
             fst (curvature_loop fuel 0 (start_param self) s) = Spin).
  { induction fuel as [| fuel IH]; intros s Hc Hs He.
    - cbn [curvature_loop]. run. rewrite Rleb_true by lra. reflexivity.
    - destruct (s2550 (curve self) (start_param self) 1) as [k status] eqn:Hk.
      simpl in Hlib. subst status.
      rewrite (curvature_loop_round _ _ _ _ k).
      + replace (start_param self + 0) with (start_param self) by lra.
        apply IH; assumption.
      + lra.
      + rewrite Hc. exact Hk. }
  specialize (Hloop (set_curvature_max 0 self1)).
  destruct (curvature_loop _ _ _ _) as [[[] | e |] s]; simpl in Hloop |- *;
    try reflexivity;
    (assert (Habs : fst (@Spin unit, s) = Spin) by reflexivity);
    specialize (Hloop ltac:(rewrite Hs1; reflexivity)
                      ltac:(rewrite Hs1; reflexivity)
                      ltac:(rewrite Hs1; reflexivity)); discriminate.
Qed.

(** X11.  With a negative step (a negative resolution, say) on a non-empty
    interval, the second sample lies before [start_param]: [getCurvature]
    throws the out-of-range exception and [getCurvatureMax] passes it on,
    with nothing cached. *)
Theorem getCurvatureMax_negative_step_throws self u self1 k fuel :
  has_curvature_max self = false ->
  getUnitParameter self = (Return u, self1) ->
  u * geometric_resolution self < 0 ->
  start_param self <= end_param self ->
  s2550 (curve self) (start_param self) 1 = (k, 0%Z) ->
  fst (getCurvatureMax (S (S fuel)) self) = Throw DomainError
  /\ has_curvature_max (snd (getCurvatureMax (S (S fuel)) self)) = false.
Proof.
  intros Hflag Hunit Hd Hdom Hk.
  destruct (getUnitParameter_frame _ _ _ Hunit) as (b & l & Hs1).
  assert (Hrun : getCurvatureMax (S (S fuel)) self
                 = (Throw DomainError, set_curvature_max (Rmax 0 k) self1)).
  { rewrite (getCurvatureMax_run _ _ _ _ Hflag Hunit).
    rewrite (curvature_loop_round _ _ _ _ k).
    - cbn [curvature_loop]. unfold bind at 1. unfold this at 1.
      rewrite Rleb_true
        by (cbn [end_param set_curvature_max]; rewrite Hs1; simpl; lra).
      unfold bind at 1. rewrite getCurvature_outside
        by (left; cbn [start_param set_curvature_max]; rewrite Hs1; simpl; lra).
      reflexivity.
    - cbn [start_param end_param set_curvature_max]. rewrite Hs1. simpl. lra.
    - cbn [curve set_curvature_max]. rewrite Hs1. exact Hk. }
  rewrite Hrun. split; [reflexivity |].
  cbn [snd has_curvature_max set_curvature_max]. rewrite Hs1. exact Hflag.
Qed.

End CurvatureMaxResults.

(** ** The theorems above on concrete objects *)

Lemma curvature_queries_guard_witness :
  (getCurvature (sisl := Ray.lib) 2 Ray.unit_segment
     = (Throw DomainError, Ray.unit_segment)
   /\ getVariationOfCurvature Sample.flat_s2556 2 Ray.unit_segment
     = (Throw DomainError, Ray.unit_segment))
  /\ (getCurvature (sisl := Ray.lib) (1 / 2) Ray.unit_segment
     = (Return 0, Ray.unit_segment)
   /\ getVariationOfCurvature Sample.flat_s2556 (1 / 2) Ray.unit_segment
     = (Return 0, Ray.unit_segment)).
Proof.
  split.
  - apply (curvature_queries_guard (sisl := Ray.lib) Sample.flat_s2556
             Ray.unit_segment 2 0 0%Z 0 0%Z eq_refl eq_refl).
    right. simpl. lra.
  - apply (curvature_queries_guard (sisl := Ray.lib) Sample.flat_s2556
             Ray.unit_segment (1 / 2) 0 0%Z 0 0%Z eq_refl eq_refl).
    simpl. lra.
Defined.

Lemma findOneClosestPoint_search_failure_witness :
  findOneClosestPoint (sisl := Ray.broken) (mkVector3d 0 1 0) (1 / 100)
    Ray.unit_segment = (Throw SearchError, Ray.unit_segment)
  /\ findOneClosestPoint_default (sisl := Ray.broken) (mkVector3d 0 1 0)
    Ray.unit_segment = (Throw SearchError, Ray.unit_segment).
Proof.
  destruct (findOneClosestPoint_search_failure (sisl := Ray.broken)
              Ray.unit_segment (mkVector3d 0 1 0) (1 / 100) [] [] (-1)%Z
              eq_refl) as [Hexplicit Hdefault].
  - discriminate.
  - split; [exact Hexplicit | apply Hdefault; reflexivity].
Defined.

Lemma addPoint_then_fit_arrays_witness :
  nth_error (coordinates (points Ray.unit_segment)) (3 * 1) = Some (-1)
  /\ nth_error (coordinates (points Ray.unit_segment)) (3 * 1 + 1) = Some 0
  /\ nth_error (coordinates (points Ray.unit_segment)) (3 * 1 + 2) = Some 0.
Proof.
  destruct (addPoint_then_fit_arrays Ray.unit_segment (mkVector3d (-3) 0 0))
    as (_ & _ & _ & _ & _ & _ & Hlayout).
  apply (Hlayout 1%nat (mkVector3d (-1) 0 0)). reflexivity.
Defined.

Lemma simplify_needs_curve_witness :
  simplify (sisl := Ray.lib) (1 / 100) (set_points [] (set_curve None Ray.unit_segment))
  = (Throw NotInitializedError, set_points [] (set_curve None Ray.unit_segment)).
Proof.
  apply (simplify_needs_curve (sisl := Ray.lib) Ray.unit_segment (1 / 100)).
  reflexivity.
Defined.

Lemma simplify_keeps_interval_and_caches_witness :
  getCurveLength (sisl := Ray.lib) Ray.measured_segment
  = (Return 1, Ray.measured_segment).
Proof.
  apply (simplify_keeps_interval_and_caches (sisl := Ray.lib)
           Ray.measured_segment (1 / 100) (Return [0; 0; 0])
           Ray.measured_segment).
  - reflexivity.
  - reflexivity.
Defined.

Lemma copy_keeps_caches_witness :
  getCurveLength (sisl := Ray.lib) (copy (fun c => c) Ray.measured_segment)
  = (Return 1, copy (fun c => c) Ray.measured_segment).
Proof.
  apply (copy_keeps_caches (sisl := Ray.lib) (fun c => c) Ray.measured_segment).
  reflexivity.
Defined.

Lemma coarse_unit_parameter :
  getUnitParameter (sisl := Ray.lib) Sample.coarse
  = (Return ((1 - 0) / 1),
     set_has_curve_length true (set_curve_length 1 Sample.coarse)).
Proof. reflexivity. Qed.

(** Two rounds on the coarse segment: samples at 0 and at 1. *)
Lemma getCurvatureMax_bounds_witness :
  0 <= Rmax (Rmax 0 0) 0
  /\ fst (s2550 (SISL := Ray.lib) (curve Sample.coarse)
            (start_param Sample.coarse
             + INR 1 * ((1 - 0) / 1 * geometric_resolution Sample.coarse)) 1)
     <= Rmax (Rmax 0 0) 0.
Proof.
  pose proof (getCurvatureMax_bounds (sisl := Ray.lib) 2 Sample.coarse
                ((1 - 0) / 1)
                (set_has_curve_length true (set_curve_length 1 Sample.coarse))
                (Rmax (Rmax 0 0) 0)
                (set_has_curvature_max true
                   (set_curvature_max (Rmax (Rmax 0 0) 0)
                      (set_has_curve_length true
                         (set_curve_length 1 Sample.coarse))))
                eq_refl eq_refl) as H.
  destruct H as (Hpos & Hsample & _).
  - rewrite (getCurvatureMax_run (sisl := Ray.lib) 2 Sample.coarse _ _ eq_refl
               coarse_unit_parameter).
    rewrite (curvature_loop_round _ _ _ _ 0);
      [| cbn [start_param end_param set_curvature_max set_has_curve_length
              set_curve_length Sample.coarse]; lra | reflexivity].
    rewrite (curvature_loop_round _ _ _ _ 0);
      [| cbn [start_param end_param set_curvature_max set_has_curve_length
              set_curve_length geometric_resolution Sample.coarse]; lra
       | reflexivity].
    rewrite curvature_loop_exit
      by (cbn [start_param end_param set_curvature_max set_has_curve_length
               set_curve_length geometric_resolution Sample.coarse]; lra).
    reflexivity.
  - split; [exact Hpos |]. apply Hsample.
    intros j Hj. cbn [start_param end_param geometric_resolution Sample.coarse].
    assert (Hcases : j = 0%nat \/ j = 1%nat) by lia.
    destruct Hcases as [-> | ->]; simpl; lra.
Defined.

Lemma getCurvatureMax_returns_witness :
  exists fuel v self',
    getCurvatureMax (sisl := Ray.lib) (fuel + 0) Ray.unit_segment
    = (Return v, self').
Proof.
  destruct (getCurvatureMax_returns (sisl := Ray.lib) Ray.unit_segment
              ((1 - 0) / 1) Ray.measured_segment)
    as (fuel & v & self' & Hrun).
  - reflexivity.
  - reflexivity.
  - cbn [geometric_resolution Ray.unit_segment]. lra.
  - intros p _. reflexivity.
  - exists fuel, v, self'. apply Hrun.
Defined.

Lemma getCurvatureMax_zero_step_never_ends_witness :
  fst (getCurvatureMax (sisl := Ray.lib) 1000 Sample.zero_resolution) = Spin.
Proof.
  refine (getCurvatureMax_zero_step_never_ends (sisl := Ray.lib)
            Sample.zero_resolution ((1 - 0) / 1)
            (set_has_curve_length true
               (set_curve_length 1 Sample.zero_resolution)) _ _ _ _ _ 1000%nat).
  - reflexivity.
  - reflexivity.
  - cbn [geometric_resolution Sample.zero_resolution]. lra.
  - cbn [start_param end_param Sample.zero_resolution]. lra.
  - reflexivity.
Defined.

Lemma getCurvatureMax_negative_step_throws_witness :
  fst (getCurvatureMax (sisl := Ray.lib) 2 Sample.negative_resolution)
  = Throw DomainError
  /\ has_curvature_max
       (snd (getCurvatureMax (sisl := Ray.lib) 2 Sample.negative_resolution))
     = false.
Proof.
  apply (getCurvatureMax_negative_step_throws (sisl := Ray.lib)
           Sample.negative_resolution ((1 - 0) / 1)
           (set_has_curve_length true
              (set_curve_length 1 Sample.negative_resolution)) 0 0%nat).
  - reflexivity.
  - reflexivity.
  - cbn [geometric_resolution Sample.negative_resolution]. lra.
  - cbn [start_param end_param Sample.negative_resolution]. lra.
  - reflexivity.
Defined.

(** ** Headings and tracking errors *)

Lemma atan2_range (y x : R) : - PI < atan2 y x <= PI.
Proof.
  pose proof PI_gt_3 as Hpi. unfold atan2.
  destruct (Req_dec_T x 0) as [Hx | Hx].
  - destruct (Req_dec_T y 0); [lra |]. destruct (Rle_dec 0 y); lra.
  - pose proof (sqrt_sumsq_pos x y (or_introl Hx)) as Hr.
    pose proof (sqrt_sumsq_sq x y) as Hrr.
    remember (sqrt (x * x + y * y)) as r eqn:Er.
    destruct (Rle_dec 0 y) as [Hy | Hy].
    + pose proof (acos_bound (x / r)). lra.
    + assert (Hu : -1 < x / r < 1).
      { assert (Hxr : x = x / r * r) by (field; lra).
        assert (Hb : - r < x < r) by (split; nra).
        generalize dependent (x / r). intros u Hxu. split; nra. }
      pose proof (acos_bound_lt (x / r) Hu). lra.
Qed.

(** On the west-heading unit segment every point off the tangent line, on
    either side of it, gets a negative distance error. *)
Lemma distanceError_west_negative (_pt : Vector3d) :
  y3 _pt <> 0 ->
  distanceError (sisl := Ray.lib) _pt 0 Ray.unit_segment
  = (Return (- planar_distance _pt Ray.start_point), Ray.unit_segment).
Proof.
  intros Hy.
  assert (Hpoint : getPoint (sisl := Ray.lib) 0 Ray.unit_segment
                   = (Return Ray.start_point, Ray.unit_segment)).
  { apply (getPoint_run (sisl := Ray.lib) Ray.unit_segment 0 0%Z (- 0) 0 0 0%Z).
    - cbn [start_param end_param Ray.unit_segment]. lra.
    - reflexivity. }
  pose proof (Ray_heading Ray.unit_segment 0 1 eq_refl) as Hheading.
  rewrite (distanceError_run _ _ _ _ _ Hpoint Hheading).
  assert (He : x2 (error_vector _pt Ray.start_point) <> 0
               \/ y2 (error_vector _pt Ray.start_point) <> 0).
  { right. unfold error_vector, Ray.start_point. cbn [y2 y3]. lra. }
  destruct (angle_of_cos_sin _ He) as [_ Hsin].
  pose proof (norm2_pos _ He) as Hnorm.
  pose proof (atan2_range
                (y2 (normalize2 (error_vector _pt Ray.start_point)))
                (x2 (normalize2 (error_vector _pt Ray.start_point)))) as Hrange.
  fold (angle_of (error_vector _pt Ray.start_point)) in Hrange.
  destruct (Rle_dec 0 (angle_of (error_vector _pt Ray.start_point) - PI))
    as [Hge | _]; [| reflexivity].
  exfalso.
  assert (Hpi : angle_of (error_vector _pt Ray.start_point) = PI) by lra.
  rewrite Hpi, sin_PI in Hsin.
  assert (Hzero : y2 (error_vector _pt Ray.start_point) = 0).
  { assert (Hmul : y2 (error_vector _pt Ray.start_point)
                   = y2 (error_vector _pt Ray.start_point)
                     / norm2 (error_vector _pt Ray.start_point)
                     * norm2 (error_vector _pt Ray.start_point))
      by (field; lra).
    rewrite <- Hsin in Hmul. lra. }
  unfold error_vector, Ray.start_point in Hzero. cbn [y2 y3] in Hzero. lra.
Qed.

Section Tracking.

Context {SISLCurve : Type} {sisl : SISL SISLCurve}.

Implicit Types (self : NURBSCurve3D SISLCurve) (_pt : Vector3d).

(** X12.  When the tangent SISL gives has a horizontal part, [getHeading]
    returns the angle in (-pi, pi] whose cosine and sine are the x and y
    components of the tangent over the length of its horizontal part; the
    vertical component plays no part. *)
Theorem getHeading_direction self _param p t0 t1 t2 n b status :
  s2559 (curve self) _param 1 = (p, (t0, t1, t2), n, b, status) ->
  t0 <> 0 \/ t1 <> 0 ->
  exists heading,
    getHeading _param self = (Return heading, self)
    /\ - PI < heading <= PI
    /\ cos heading = t0 / sqrt (t0 * t0 + t1 * t1)
    /\ sin heading = t1 / sqrt (t0 * t0 + t1 * t1).
Proof.
  intros Hlib Ht. exists (angle_of (mkVector2d t0 t1)).
  split; [apply (getHeading_run _ _ _ _ _ _ _ _ _ Hlib) |].
  split; [apply atan2_range |].
  apply (angle_of_cos_sin (mkVector2d t0 t1)). exact Ht.
Qed.

(** X13.  [distanceError] looks at the horizontal plane only: the height of
    the point changes nothing, and the result is 0 exactly when the point
    is straight above, below or at the point of the curve. *)
Theorem distanceError_planar self _pt _param on_curve :
  getPoint _param self = (Return on_curve, self) ->
  (forall z,
      distanceError (set_z _pt z) _param self = distanceError _pt _param self)
  /\ exists d,
      distanceError _pt _param self = (Return d, self)
      /\ (d = 0 <-> x3 _pt = x3 on_curve /\ y3 _pt = y3 on_curve).
Proof.
  intros Hpoint. split; [reflexivity |].
  destruct (getHeading_returns self _param) as [heading Hheading].
  rewrite (distanceError_run _ _ _ _ _ Hpoint Hheading).
  eexists. split; [reflexivity |].
  assert (Hzero : planar_distance _pt on_curve = 0
                  <-> x3 _pt = x3 on_curve /\ y3 _pt = y3 on_curve).
  { unfold planar_distance. split.
    - intros H.
      pose proof (Rle_0_sqr (x3 _pt - x3 on_curve)) as Hx0.
      pose proof (Rle_0_sqr (y3 _pt - y3 on_curve)) as Hy0.
      unfold Rsqr in Hx0, Hy0.
      apply sqrt_eq_0 in H; [| lra].
      assert (Hx : (x3 _pt - x3 on_curve) * (x3 _pt - x3 on_curve) = 0) by lra.
      assert (Hy : (y3 _pt - y3 on_curve) * (y3 _pt - y3 on_curve) = 0) by lra.
      apply Rmult_integral in Hx. apply Rmult_integral in Hy. lra.
    - intros [Hx Hy]. rewrite Hx, Hy.
      replace ((x3 on_curve - x3 on_curve) * (x3 on_curve - x3 on_curve)
               + (y3 on_curve - y3 on_curve) * (y3 on_curve - y3 on_curve))
        with 0 by ring.
      apply sqrt_0. }
  destruct (Rle_dec 0 _); rewrite <- Hzero; split; lra.
Qed.

(** X14.  Outside the parameter interval [distanceError] throws the
    out-of-range exception, while [headingError], which does not check the
    interval, still returns. *)
Theorem tracking_errors_outside self _pt actual _param :
  _param < start_param self \/ _param > end_param self ->
  distanceError _pt _param self = (Throw DomainError, self)
  /\ exists e, headingError actual _param self = (Return e, self).
Proof.
  intros Hout. split; [| apply headingError_returns].
  apply out_of_domain_test in Hout.
  unfold distanceError, bind at 1. unfold getPoint. run. rewrite Hout.
  reflexivity.
Qed.

(** X15.  [poseError] changes nothing in the object but the cached length.
    When the length was cached before the call the object is unchanged; when
    it was not, it is cached after every call that does not end in the
    length error. *)
Theorem poseError_touches_length_cache_only self _pt actual st tol
    (r : outcome Vector3d) self' :
  poseError _pt actual st tol self = (r, self') ->
  (exists flag len,
      self' = set_has_curve_length flag (set_curve_length len self))
  /\ (has_curve_length self = true -> self' = self)
  /\ (r <> Throw LengthError -> has_curve_length self' = true).
Proof.
  intros Hrun.
  assert (Hrest : forall u s1, exists r1,
             (bind this (fun s =>
                bind (localClosestPointSearch _pt st st (st + u * tol)
                        (geometric_resolution s))
                  (fun param =>
                     bind (distanceError _pt param)
                       (fun d =>
                          bind (headingError actual param)
                            (fun h => ret (mkVector3d d h param)))))) s1
             = (r1, s1)).
  { intros u s1. unfold bind at 1. unfold this at 1. unfold bind at 1.
    pose proof (localClosestPointSearch_unchanged s1 _pt st st (st + u * tol)
                  (geometric_resolution s1)) as Hs.
    destruct (localClosestPointSearch _ _ _ _ _ s1) as [[param | e |] s2];
      simpl in Hs; subst s2; try (eexists; reflexivity).
    unfold bind at 1.
    pose proof (distanceError_unchanged s1 _pt param) as Hd.
    destruct (distanceError _pt param s1) as [[d | e |] s2];
      simpl in Hd; subst s2; try (eexists; reflexivity).
    destruct (headingError_returns s1 actual param) as [h Hh].
    unfold bind. rewrite Hh. eexists. reflexivity. }
  unfold poseError in Hrun. unfold bind at 1 in Hrun.
  destruct (getUnitParameter self) as [[u | e |] s1] eqn:Hunit.
  - destruct (Hrest u s1) as [r1 Hr1]. rewrite Hr1 in Hrun.
    injection Hrun as <- <-.
    revert Hunit. unfold getUnitParameter. unfold bind at 1. unfold this at 1.
    unfold bind. destruct (getCurveLength self) as [[len | e |] s2] eqn:Hlen;
      intros H; try discriminate. injection H as _ <-.
    split; [eapply getCurveLength_frame; exact Hlen |]. split.
    + intros Hc. rewrite (getCurveLength_cached _ Hc) in Hlen.
      injection Hlen as _ <-. reflexivity.
    + intros _. apply (getCurveLength_fills_cache _ _ _ Hlen).
  - injection Hrun as <- <-.
    revert Hunit. unfold getUnitParameter. unfold bind at 1. unfold this at 1.
    unfold bind. destruct (getCurveLength self) as [[len | e' |] s2] eqn:Hlen;
      intros H; try discriminate. injection H as <- <-.
    split; [eapply getCurveLength_frame; exact Hlen |]. split.
    + intros Hc. rewrite (getCurveLength_cached _ Hc) in Hlen. discriminate.
    + intros Hne. exfalso. apply Hne. f_equal.
      revert Hlen. unfold getCurveLength. run.
      destruct (has_curve_length self); [discriminate |].
      destruct (s1240 _ _ _) as [len status].
      destruct (status =? 0)%Z; simpl; intros H; [discriminate |].
      injection H as <- _. reflexivity.
  - exfalso. revert Hunit. unfold getUnitParameter. unfold bind at 1.
    unfold this at 1. unfold bind.
    destruct (getCurveLength self) as [[len | e' |] s2] eqn:Hlen;
      intros H; try discriminate.
    revert Hlen. unfold getCurveLength. run.
    destruct (has_curve_length self); [discriminate |].
    destruct (s1240 _ _ _) as [len status].
    destruct (status =? 0)%Z; discriminate.
Qed.

End Tracking.

Lemma getHeading_direction_witness :
  exists heading,
    getHeading (sisl := Ray.east) 0 Ray.east_segment
      = (Return heading, Ray.east_segment)
    /\ - PI < heading <= PI
    /\ cos heading = 1 / sqrt (1 * 1 + 0 * 0)
    /\ sin heading = 0 / sqrt (1 * 1 + 0 * 0).
Proof.
  apply (getHeading_direction (sisl := Ray.east) Ray.east_segment 0
           0 1 0 0 (0, 1, 0) (0, 0, 1) 0%Z).
  - reflexivity.
  - left. lra.
Defined.

Lemma distanceError_planar_witness :
  distanceError (sisl := Ray.east) (set_z (mkVector3d 0 1 0) 7) 0
    Ray.east_segment
  = distanceError (sisl := Ray.east) (mkVector3d 0 1 0) 0 Ray.east_segment.
Proof.
  refine (proj1 (distanceError_planar (sisl := Ray.east) Ray.east_segment
                   (mkVector3d 0 1 0) 0 (mkVector3d 0 0 0) _) 7).
  apply (getPoint_run (sisl := Ray.east) Ray.east_segment 0 0%Z 0 0 0 0%Z).
  - cbn [start_param end_param Ray.east_segment]. lra.
  - reflexivity.
Defined.

Lemma tracking_errors_outside_witness :
  distanceError (sisl := Ray.lib) (mkVector3d 0 1 0) 2 Ray.unit_segment
    = (Throw DomainError, Ray.unit_segment)
  /\ exists e,
      headingError (sisl := Ray.lib) 0 2 Ray.unit_segment
        = (Return e, Ray.unit_segment).
Proof.
  apply (tracking_errors_outside (sisl := Ray.lib) Ray.unit_segment
           (mkVector3d 0 1 0) 0 2).
  right. cbn [end_param Ray.unit_segment]. lra.
Defined.

(** With the library in which every call fails, the length cannot be had:
    [poseError] throws the length error and the object is as before. *)
Lemma poseError_touches_length_cache_only_witness :
  exists flag len,
    Ray.unit_segment
    = set_has_curve_length flag (set_curve_length len Ray.unit_segment).
Proof.
  apply (poseError_touches_length_cache_only (sisl := Ray.broken)
           Ray.unit_segment (mkVector3d 0 1 0) 0 0 1
           (Throw LengthError) Ray.unit_segment).
  reflexivity.
Defined.

(** ** Failing lengths and fresh fits *)

Section LengthAndFit.

Context {SISLCurve : Type} {sisl : SISL SISLCurve}.

Implicit Types (self : NURBSCurve3D SISLCurve) (_pt : Vector3d).

(** X16.  When no length is cached and SISL fails to give one,
    [getCurveLength] throws the length error and caches nothing, so the next
    call asks SISL again; [getUnitParameter], [getCurvatureMax] and
    [poseError] pass the error on. *)
Theorem length_failure_is_passed_on self len status :
  has_curve_length self = false ->
  s1240 (curve self) (geometric_resolution self) (curve_length self)
    = (len, status) ->
  status <> 0%Z ->
  let failed := set_curve_length len self in
  has_curve_length failed = false
  /\ getCurveLength self = (Throw LengthError, failed)
  /\ getUnitParameter self = (Throw LengthError, failed)
  /\ (has_curvature_max self = false ->
      forall fuel, getCurvatureMax fuel self = (Throw LengthError, failed))
  /\ (forall _pt actual st tol,
        poseError _pt actual st tol self = (Throw LengthError, failed)).
Proof.
  intros Hflag Hlib Hstatus failed. apply Z.eqb_neq in Hstatus.
  assert (Hlen : getCurveLength self = (Throw LengthError, failed)).
  { unfold getCurveLength. run. rewrite Hflag, Hlib, Hstatus. reflexivity. }
  assert (Hunit : getUnitParameter self = (Throw LengthError, failed)).
  { unfold getUnitParameter. unfold bind at 1. unfold this at 1. unfold bind.
    rewrite Hlen. reflexivity. }
  split; [exact Hflag |]. split; [exact Hlen |]. split; [exact Hunit |]. split.
  - intros Hmax fuel. unfold getCurvatureMax. unfold bind at 1.
    unfold this at 1. rewrite Hmax. unfold bind at 1. rewrite Hunit.
    reflexivity.
  - intros _pt actual st tol. unfold poseError. unfold bind at 1.
    rewrite Hunit. reflexivity.
Qed.

(** X17.  After an [update] that SISL completes with status 0 the object
    holds the new curve over the interval from 0 to the end parameter SISL
    reported, with the control points it had: [getPoint] throws the
    out-of-range exception below 0 and above that end parameter. *)
Theorem update_sets_interval self cendpar rc :
  s1356 (coordinates (points self)) (getPointCount self) DIM
    (ordinary_points (points self)) 0 0 1 (curve_order self) 0 (end_param self)
    = (cendpar, rc, 0%Z) ->
  exists fitted,
    update self = (Return tt, fitted)
    /\ curve fitted = rc
    /\ start_param fitted = 0
    /\ end_param fitted = cendpar
    /\ points fitted = points self
    /\ (forall p, p < 0 \/ p > cendpar ->
          getPoint p fitted = (Throw DomainError, fitted)).
Proof.
  intros Hlib. eexists. split; [apply (update_run _ _ _ _ Hlib) |].
  repeat split.
  intros p Hout. apply (out_of_domain_test 0 cendpar p) in Hout.
  unfold getPoint. run.
  cbn [start_param end_param set_curve set_end_param set_start_param].
  rewrite Hout. reflexivity.
Qed.

End LengthAndFit.

Lemma length_failure_is_passed_on_witness :
  getCurveLength (sisl := Ray.lib) (set_curve None Ray.unit_segment)
  = (Throw LengthError,
     set_curve_length (-1) (set_curve None Ray.unit_segment)).
Proof.
  apply (length_failure_is_passed_on (sisl := Ray.lib)
           (set_curve None Ray.unit_segment) (-1) (-1)%Z).
  - reflexivity.
  - reflexivity.
  - discriminate.
Defined.

Lemma update_sets_interval_witness :
  exists fitted,
    update (sisl := Ray.lib) Ray.unit_segment = (Return tt, fitted)
    /\ end_param fitted = - -1
    /\ getPoint (sisl := Ray.lib) 2 fitted = (Throw DomainError, fitted).
Proof.
  destruct (update_sets_interval (sisl := Ray.lib) Ray.unit_segment
              (- -1) (Some (- -1)) eq_refl)
    as (fitted & Hrun & _ & _ & Hend & _ & Hguard).
  exists fitted. split; [exact Hrun |]. split; [exact Hend |].
  apply Hguard. right. lra.
Defined.

(** * Properties of LaserScan.hpp *)

(** ** Valid ranges and beams *)

Lemma isRangeValid_iff (self : Laser.LaserScan) (range : Z) :
  Laser.isRangeValid self range = true
  <-> (Laser.minRange self <= range <= Laser.maxRange self /\ 6 <= range)%Z.
Proof.
  unfold Laser.isRangeValid. cbn [Laser.enum_value].
  destruct (Z.leb_spec (Laser.minRange self) range),
           (Z.leb_spec range (Laser.maxRange self)), (Z.leb_spec 6 range);
    simpl; split; intros Hv; try reflexivity; try discriminate; lia.
Qed.

Lemma isValidBeam_inside (self : Laser.LaserScan) (i : nat) (range : Z) :
  nth_error (Laser.ranges self) i = Some range ->
  Laser.isValidBeam self i = Laser.Got (Laser.isRangeValid self range).
Proof.
  intros Hnth. unfold Laser.isValidBeam.
  assert (Hi : (i < List.length (Laser.ranges self))%nat)
    by (apply nth_error_Some; rewrite Hnth; discriminate).
  rewrite (proj2 (Nat.ltb_ge _ _)) by lia. rewrite Hnth. reflexivity.
Qed.

(** X18.  A range is valid exactly when it lies between [minRange] and
    [maxRange] and is at least [END_LASER_RANGE_ERRORS], which is 6.  So
    the five error codes, and 0, are never valid, whatever the limits of the
    scanner. *)
Theorem isRangeValid_excludes_error_codes (self : Laser.LaserScan) (range : Z) :
  (Laser.isRangeValid self range = true
   <-> (Laser.minRange self <= range <= Laser.maxRange self /\ 6 <= range)%Z)
  /\ (forall e, e <> Laser.END_LASER_RANGE_ERRORS ->
        Laser.isRangeValid self (Laser.enum_value e) = false)
  /\ Laser.isRangeValid self 0 = false.
Proof.
  split; [apply isRangeValid_iff |]. split.
  - intros e He. destruct (Laser.isRangeValid self (Laser.enum_value e)) eqn:Hv;
      [| reflexivity].
    apply isRangeValid_iff in Hv. destruct e; cbn [Laser.enum_value] in Hv;
      try lia. contradiction.
  - destruct (Laser.isRangeValid self 0) eqn:Hv; [| reflexivity].
    apply isRangeValid_iff in Hv. lia.
Qed.

Lemma isRangeValid_excludes_error_codes_witness :
  Laser.isRangeValid Laser.sample (Laser.enum_value Laser.TOO_FAR) = false.
Proof.
  destruct (isRangeValid_excludes_error_codes Laser.sample 0)
    as (_ & Hcodes & _).
  apply Hcodes. discriminate.
Defined.

(** X19.  [isValidBeam] throws the out-of-range exception only for an index
    above the number of ranges.  The index equal to the number of ranges
    passes the test and is read, one past the end.  Below that, the answer is
    the validity of the range at the index. *)
Theorem isValidBeam_index (self : Laser.LaserScan) (i : nat) :
  ((List.length (Laser.ranges self) < i)%nat ->
     Laser.isValidBeam self i
     = Laser.Raised (out_of_range "Invalid beam index given"))
  /\ (i = List.length (Laser.ranges self) ->
     Laser.isValidBeam self i = Laser.PastTheEnd)
  /\ (forall range, nth_error (Laser.ranges self) i = Some range ->
     Laser.isValidBeam self i = Laser.Got (Laser.isRangeValid self range)).
Proof.
  repeat split.
  - intros Hi. unfold Laser.isValidBeam. apply Nat.ltb_lt in Hi.
    rewrite Hi. reflexivity.
  - intros ->. unfold Laser.isValidBeam. rewrite Nat.ltb_irrefl.
    rewrite (proj2 (nth_error_None _ _) (Nat.le_refl _)). reflexivity.
  - apply isValidBeam_inside.
Qed.

Lemma isValidBeam_index_witness :
  Laser.isValidBeam Laser.sample 5
    = Laser.Raised (out_of_range "Invalid beam index given")
  /\ Laser.isValidBeam Laser.sample 4 = Laser.PastTheEnd
  /\ Laser.isValidBeam Laser.sample 1
    = Laser.Got (Laser.isRangeValid Laser.sample 3).
Proof.
  split; [| split].
  - apply (isValidBeam_index Laser.sample 5). simpl. lia.
  - apply (isValidBeam_index Laser.sample 4). reflexivity.
  - apply (isValidBeam_index Laser.sample 1). reflexivity.
Defined.

(** ** The point of a beam *)

(** Turning about the z axis: the rotation of the code, in coordinates. *)
Lemma rotate_about_z (angle x y z : R) :
  rotate (Quaterniond_of_AngleAxisd angle UnitZ) (mkVector3d x y z)
  = mkVector3d (x * cos angle - y * sin angle) (x * sin angle + y * cos angle) z.
Proof.
  unfold rotate, Quaterniond_of_AngleAxisd, UnitZ, cross3, add3, scale3.
  cbn [qw qvec x3 y3 z3].
  assert (Hc : cos angle = cos (angle / 2) * cos (angle / 2)
                           - sin (angle / 2) * sin (angle / 2)).
  { rewrite <- cos_2a. f_equal. field. }
  assert (Hs : sin angle = 2 * sin (angle / 2) * cos (angle / 2)).
  { rewrite <- sin_2a. f_equal. field. }
  rewrite Hc, Hs.
  pose proof (sin2_cos2 (angle / 2)) as Hunit. unfold Rsqr in Hunit.
  assert (Hcc : cos (angle / 2) * cos (angle / 2)
                = 1 - sin (angle / 2) * sin (angle / 2)) by lra.
  rewrite Hcc. f_equal; ring.
Qed.

Lemma getPointFromScanBeamXForward_run (self : Laser.LaserScan) (i : nat)
    (range : Z) (junk : Vector3d) :
  nth_error (Laser.ranges self) i = Some range ->
  Laser.getPointFromScanBeamXForward self i junk
  = Laser.Got
      (if Laser.isRangeValid self range
       then (true,
             rotate (Quaterniond_of_AngleAxisd
                       (Laser.start_angle self
                        + INR i * Laser.angular_resolution self) UnitZ)
               (mkVector3d (IZR range / 1000) 0 0))
       else (false, junk)).
Proof.
  intros Hnth. unfold Laser.getPointFromScanBeamXForward.
  rewrite (isValidBeam_inside _ _ _ Hnth).
  rewrite (nth_error_nth _ _ 0%Z Hnth).
  destruct (Laser.isRangeValid self range); reflexivity.
Qed.

Lemma getPointFromScanBeam_run (self : Laser.LaserScan) (i : nat)
    (range : Z) (junk : Vector3d) :
  nth_error (Laser.ranges self) i = Some range ->
  Laser.getPointFromScanBeam self i junk
  = Laser.Got
      (if Laser.isRangeValid self range
       then (true,
             rotate (Quaterniond_of_AngleAxisd
                       (Laser.start_angle self
                        + INR i * Laser.angular_resolution self) UnitZ)
               (mkVector3d 0 (IZR range / 1000) 0))
       else (false, junk)).
Proof.
  intros Hnth. unfold Laser.getPointFromScanBeam.
  rewrite (isValidBeam_inside _ _ _ Hnth).
  rewrite (nth_error_nth _ _ 0%Z Hnth).
  destruct (Laser.isRangeValid self range); reflexivity.
Qed.

(** X20.  For a valid range at index [i], [getPointFromScanBeamXForward]
    gives the point of the horizontal plane at distance range/1000 from the
    sensor, in the direction [start_angle + i * angular_resolution] counted
    from the x axis.  The deprecated [getPointFromScanBeam] gives that point
    turned a quarter turn to the left. *)
Theorem beam_point_polar (self : Laser.LaserScan) (i : nat) (range : Z)
    (junk : Vector3d) :
  nth_error (Laser.ranges self) i = Some range ->
  Laser.isRangeValid self range = true ->
  let theta := Laser.start_angle self + INR i * Laser.angular_resolution self in
  let rho := IZR range / 1000 in
  Laser.getPointFromScanBeamXForward self i junk
    = Laser.Got (true, mkVector3d (rho * cos theta) (rho * sin theta) 0)
  /\ norm3 (mkVector3d (rho * cos theta) (rho * sin theta) 0) = rho
  /\ Laser.getPointFromScanBeam self i junk
    = Laser.Got (true, mkVector3d (- (rho * sin theta)) (rho * cos theta) 0).
Proof.
  intros Hnth Hvalid theta rho. split; [| split].
  - rewrite (getPointFromScanBeamXForward_run _ _ _ _ Hnth), Hvalid.
    rewrite rotate_about_z. fold theta rho. do 3 f_equal; ring.
  - assert (Hrho : 0 <= rho).
    { apply isRangeValid_iff in Hvalid. destruct Hvalid as [_ H6].
      apply IZR_le in H6. unfold rho. lra. }
    unfold norm3. cbn [x3 y3 z3].
    pose proof (sin2_cos2 theta) as Hunit. unfold Rsqr in Hunit.
    replace (rho * cos theta * (rho * cos theta)
             + rho * sin theta * (rho * sin theta) + 0 * 0)
      with (rho * rho) by nra.
    apply sqrt_square. exact Hrho.
  - rewrite (getPointFromScanBeam_run _ _ _ _ Hnth), Hvalid.
    rewrite rotate_about_z. fold theta rho. do 3 f_equal; ring.
Qed.

(** Beam 2 of the sample: range 1000 at half a turn. *)
Lemma beam_point_polar_witness :
  Laser.getPointFromScanBeamXForward Laser.sample 2 (mkVector3d 0 0 0)
  = Laser.Got
      (true,
       mkVector3d (1000 / 1000 * cos (0 + INR 2 * (PI / 2)))
         (1000 / 1000 * sin (0 + INR 2 * (PI / 2))) 0).
Proof.
  apply (beam_point_polar Laser.sample 2 1000 (mkVector3d 0 0 0)).
  - reflexivity.
  - reflexivity.
Defined.

(** ** Point clouds *)

Lemma flat_map_singleton {A B : Type} (f : A -> B) (l : list A) :
  flat_map (fun a => [f a]) l = map f l.
Proof. induction l as [| a l IH]; [reflexivity |]. simpl. rewrite IH. reflexivity. Qed.

Lemma flat_map_filter {A B : Type} (keep : A -> bool) (f : A -> B) (l : list A) :
  flat_map (fun a => if keep a then [f a] else []) l = map f (filter keep l).
Proof.
  induction l as [| a l IH]; [reflexivity |]. simpl. rewrite IH.
  destruct (keep a); reflexivity.
Qed.

Lemma nth_error_middle {A : Type} (done rest : list A) (a : A) :
  nth_error (done ++ a :: rest) (List.length done) = Some a.
Proof.
  rewrite nth_error_app2 by lia. rewrite Nat.sub_diag. reflexivity.
Qed.

Lemma beam_rotation (self : Laser.LaserScan) (i : nat) (range : Z) :
  rotate (Quaterniond_of_AngleAxisd
            (Laser.start_angle self + INR i * Laser.angular_resolution self)
            UnitZ)
    (mkVector3d (IZR range / 1000) 0 0)
  = Laser.polar_point self i range.
Proof. rewrite rotate_about_z. unfold Laser.polar_point. f_equal; ring. Qed.

Lemma deprecated_beam_rotation (self : Laser.LaserScan) (i : nat) (range : Z) :
  rotate (Quaterniond_of_AngleAxisd
            (Laser.start_angle self + INR i * Laser.angular_resolution self)
            UnitZ)
    (mkVector3d 0 (IZR range / 1000) 0)
  = Laser.quarter_turn (Laser.polar_point self i range).
Proof.
  rewrite rotate_about_z. unfold Laser.quarter_turn, Laser.polar_point. cbn [x3 y3 z3].
  f_equal; ring.
Qed.

Section CloudProperties.

Variable unknown : R.
Variable junk : Vector3d.
Variable self : Laser.LaserScan.
Variable transform : Affine3d.

(** The loop over the beams from [done] on never throws and never reads
    past the end. *)
Lemma cloud_loop_spec (keep_invalid : bool) :
  forall rest done acc,
    Laser.ranges self = done ++ rest ->
    Laser.cloud_loop unknown junk self transform keep_invalid
      (List.length rest) (List.length done) acc
    = Laser.Got
        (acc ++
         flat_map
           (fun jr =>
              if Laser.isRangeValid self (snd jr)
              then [transform_point transform
                      (Laser.polar_point self (fst jr) (snd jr))]
              else if keep_invalid
                   then [mkVector3d unknown unknown unknown]
                   else [])
           (combine (seq (List.length done) (List.length rest)) rest)).
Proof.
  induction rest as [| r rest IH]; intros done acc Hranges.
  - simpl. rewrite app_nil_r. reflexivity.
  - cbn [List.length Laser.cloud_loop seq combine flat_map fst snd].
    assert (Hnth : nth_error (Laser.ranges self) (List.length done) = Some r)
      by (rewrite Hranges; apply nth_error_middle).
    rewrite (getPointFromScanBeamXForward_run _ _ _ _ Hnth), beam_rotation.
    specialize (IH (done ++ [r])). rewrite length_app in IH.
    cbn [List.length] in IH. rewrite Nat.add_1_r in IH.
    assert (Hranges' : Laser.ranges self = (done ++ [r]) ++ rest)
      by (rewrite <- app_assoc; exact Hranges).
    destruct (Laser.isRangeValid self r).
    + rewrite (IH _ Hranges'). rewrite <- app_assoc. reflexivity.
    + rewrite (IH _ Hranges'). destruct keep_invalid;
        [rewrite <- app_assoc |]; reflexivity.
Qed.

Lemma deprecated_loop_spec :
  forall rest done acc,
    Laser.ranges self = done ++ rest ->
    Laser.deprecated_loop junk self transform
      (List.length rest) (List.length done) acc
    = Laser.Got
        (acc ++
         flat_map
           (fun jr =>
              if Laser.isRangeValid self (snd jr)
              then [transform_point transform
                      (Laser.quarter_turn (Laser.polar_point self (fst jr) (snd jr)))]
              else [])
           (combine (seq (List.length done) (List.length rest)) rest)).
Proof.
  induction rest as [| r rest IH]; intros done acc Hranges.
  - simpl. rewrite app_nil_r. reflexivity.
  - cbn [List.length Laser.deprecated_loop seq combine flat_map fst snd].
    assert (Hnth : nth_error (Laser.ranges self) (List.length done) = Some r)
      by (rewrite Hranges; apply nth_error_middle).
    rewrite (getPointFromScanBeam_run _ _ _ _ Hnth), deprecated_beam_rotation.
    specialize (IH (done ++ [r])). rewrite length_app in IH.
    cbn [List.length] in IH. rewrite Nat.add_1_r in IH.
    assert (Hranges' : Laser.ranges self = (done ++ [r]) ++ rest)
      by (rewrite <- app_assoc; exact Hranges).
    destruct (Laser.isRangeValid self r).
    + rewrite (IH _ Hranges'). rewrite <- app_assoc. reflexivity.
    + rewrite (IH _ Hranges'). reflexivity.
Qed.

Lemma beams_length : List.length (Laser.beams self) = List.length (Laser.ranges self).
Proof.
  unfold Laser.beams. rewrite length_combine, length_seq. apply Nat.min_id.
Qed.

(** X21.  Asked to keep the invalid points, [convertScanToPointCloud] never
    throws and never reads past the end; it returns one point per range,
    in the order of the ranges: the transformed polar point for a valid range
    and the unknown point for an invalid one.  What the vector held before
    the call is gone. *)
Theorem convertScanToPointCloud_keeps_every_beam (points : list Vector3d) :
  Laser.convertScanToPointCloud unknown junk self points transform false
  = Laser.Got
      (map (fun jr =>
              if Laser.isRangeValid self (snd jr)
              then transform_point transform (Laser.polar_point self (fst jr) (snd jr))
              else mkVector3d unknown unknown unknown)
         (Laser.beams self))
  /\ (forall cloud,
        Laser.convertScanToPointCloud unknown junk self points transform false
        = Laser.Got cloud ->
        List.length cloud = List.length (Laser.ranges self)).
Proof.
  assert (Hrun : Laser.convertScanToPointCloud unknown junk self points
                   transform false
                 = Laser.Got
                     (map (fun jr =>
                             if Laser.isRangeValid self (snd jr)
                             then transform_point transform
                                    (Laser.polar_point self (fst jr) (snd jr))
                             else mkVector3d unknown unknown unknown)
                        (Laser.beams self))).
  { unfold Laser.convertScanToPointCloud. cbn [negb].
    pose proof (cloud_loop_spec true (Laser.ranges self) [] [] eq_refl) as Hloop.
    cbn [List.length app] in Hloop. rewrite Hloop.
    rewrite <- flat_map_singleton. f_equal.
    apply flat_map_ext. intros [j r]. cbn [fst snd].
    destruct (Laser.isRangeValid self r); reflexivity. }
  split; [exact Hrun |].
  intros cloud Hcloud. rewrite Hrun in Hcloud. injection Hcloud as <-.
  rewrite length_map. apply beams_length.
Qed.

(** X22.  Asked to skip the invalid points, as it is by default,
    [convertScanToPointCloud] never throws and never reads past the end; it
    returns the transformed polar points of the valid ranges, in the order of
    the ranges, and nothing for the others.  With the default transform, the
    identity, the points are the polar points themselves. *)
Theorem convertScanToPointCloud_skips_invalid (points : list Vector3d) :
  Laser.convertScanToPointCloud unknown junk self points transform true
  = Laser.Got
      (map (fun jr =>
              transform_point transform (Laser.polar_point self (fst jr) (snd jr)))
         (filter (fun jr => Laser.isRangeValid self (snd jr)) (Laser.beams self)))
  /\ (forall cloud,
        Laser.convertScanToPointCloud unknown junk self points transform true
        = Laser.Got cloud ->
        List.length cloud
        = List.length (filter (Laser.isRangeValid self) (Laser.ranges self))
        /\ (List.length cloud <= List.length (Laser.ranges self))%nat)
  /\ (forall v, transform_point Affine3d_Identity v = v).
Proof.
  assert (Hrun : Laser.convertScanToPointCloud unknown junk self points
                   transform true
                 = Laser.Got
                     (map (fun jr =>
                             transform_point transform
                               (Laser.polar_point self (fst jr) (snd jr)))
                        (filter (fun jr => Laser.isRangeValid self (snd jr))
                           (Laser.beams self)))).
  { unfold Laser.convertScanToPointCloud. cbn [negb].
    pose proof (cloud_loop_spec false (Laser.ranges self) [] [] eq_refl) as Hloop.
    cbn [List.length app] in Hloop. rewrite Hloop.
    rewrite <- flat_map_filter. reflexivity. }
  split; [exact Hrun |]. split.
  - intros cloud Hcloud. rewrite Hrun in Hcloud. injection Hcloud as <-.
    rewrite length_map.
    assert (Hcount : forall (l : list Z) (i : nat),
               List.length (filter (fun jr : nat * Z =>
                                      Laser.isRangeValid self (snd jr))
                              (combine (seq i (List.length l)) l))
               = List.length (filter (Laser.isRangeValid self) l)).
    { induction l as [| r l IH]; intros i; [reflexivity |].
      cbn [List.length seq combine filter snd].
      destruct (Laser.isRangeValid self r); cbn [List.length]; rewrite IH;
        reflexivity. }
    unfold Laser.beams. rewrite Hcount. split; [reflexivity |]. apply filter_length_le.
  - intros [x y z]. unfold transform_point, Affine3d_Identity, dot3, add3.
    simpl. f_equal; ring.
Qed.

(** X23.  The deprecated conversion returns, for the valid ranges in order,
    the transformed polar points turned a quarter turn to the left; it never
    throws and never reads past the end. *)
Theorem convertScanToPointCloud_deprecated_quarter_turn :
  Laser.convertScanToPointCloud_deprecated junk self transform
  = Laser.Got
      (map (fun jr =>
              transform_point transform
                (Laser.quarter_turn (Laser.polar_point self (fst jr) (snd jr))))
         (filter (fun jr => Laser.isRangeValid self (snd jr)) (Laser.beams self))).
Proof.
  unfold Laser.convertScanToPointCloud_deprecated.
  pose proof (deprecated_loop_spec (Laser.ranges self) [] [] eq_refl) as Hloop.
  cbn [List.length app] in Hloop. rewrite Hloop.
  rewrite <- flat_map_filter. reflexivity.
Qed.

(** X24.  After [reset] the speed and the start angle are 0, [minRange] and
    [maxRange] are 0, the scan has no range and no remission, no range
    value is valid any more, and every conversion gives the empty cloud;
    [angular_resolution] and [time] are the two members [reset] leaves as
    they were. *)
Theorem reset_leaves_nothing_valid (points : list Vector3d) (skip : bool) :
  Laser.speed (Laser.reset self) = 0
  /\ Laser.start_angle (Laser.reset self) = 0
  /\ Laser.minRange (Laser.reset self) = 0%Z
  /\ Laser.maxRange (Laser.reset self) = 0%Z
  /\ Laser.ranges (Laser.reset self) = []
  /\ Laser.remission (Laser.reset self) = []
  /\ (forall range, Laser.isRangeValid (Laser.reset self) range = false)
  /\ Laser.convertScanToPointCloud unknown junk (Laser.reset self) points
       transform skip = Laser.Got []
  /\ Laser.angular_resolution (Laser.reset self) = Laser.angular_resolution self
  /\ Laser.time (Laser.reset self) = Laser.time self.
Proof.
  split; [reflexivity |]. split; [reflexivity |].
  split; [reflexivity |]. split; [reflexivity |].
  split; [reflexivity |]. split; [reflexivity |]. split.
  - intros range.
    destruct (Laser.isRangeValid (Laser.reset self) range) eqn:Hv;
      [| reflexivity].
    apply isRangeValid_iff in Hv. cbn [Laser.minRange Laser.maxRange Laser.reset] in Hv.
    lia.
  - split; [destruct skip; reflexivity |]. split; reflexivity.
Qed.

End CloudProperties.

(** On the sample, beams 0 and 2 are valid and beams 1 and 3 are not. *)
Lemma convertScanToPointCloud_keeps_every_beam_witness :
  exists cloud,
    Laser.convertScanToPointCloud 0 (mkVector3d 0 0 0) Laser.sample []
      Affine3d_Identity false = Laser.Got cloud
    /\ List.length cloud = 4%nat.
Proof.
  destruct (convertScanToPointCloud_keeps_every_beam 0 (mkVector3d 0 0 0)
              Laser.sample Affine3d_Identity []) as [Hrun Hlength].
  eexists. split; [exact Hrun | apply Hlength; exact Hrun].
Defined.

Lemma convertScanToPointCloud_skips_invalid_witness :
  exists cloud,
    Laser.convertScanToPointCloud 0 (mkVector3d 0 0 0) Laser.sample []
      Affine3d_Identity true = Laser.Got cloud
    /\ List.length cloud = 2%nat.
Proof.
  destruct (convertScanToPointCloud_skips_invalid 0 (mkVector3d 0 0 0)
              Laser.sample Affine3d_Identity []) as (Hrun & Hlength & _).
  eexists. split; [exact Hrun | apply (Hlength _ Hrun)].
Defined.
